(** * Pharmacy back end (app.py): store model, request handlers, properties

    A shallow embedding of the Flask/SQLAlchemy application in [src/app.py].

    - The four tables are the fields of [Store].  Tables with a client-chosen
      primary key are finite maps from the key to the remaining columns; the
      [prescription_details] table, whose key is AUTO_INCREMENT, is the list of
      its rows in insertion order together with the next free id.
    - Request bodies are records of typed, optional fields: a field that is
      [None] is a key absent from the JSON object.
    - A unit of work (the closure handed to [execute_with_retry]) is a function
      from the store to an outcome (a value or a raised exception) and the
      store it leaves behind.  The closures of the handlers run against a
      reachable database: they mutate and commit in one step and raise only
      what the Python code itself raises ([KeyError], [IntegrityError]).
      Connectivity faults are treated for an arbitrary unit of work in the
      section on [execute_with_retry].
    - [Float] columns are kept abstract: the development is parametric in the
      arithmetic ([FloatArith]), so nothing depends on rounding. *)

From stdpp Require Import gmap strings list fin_maps.
From Stdlib Require Import ZArith QArith.

Local Open Scope string_scope.
Local Open Scope Z_scope.

(** ** Exceptions and outcomes *)

(** The exceptions the application distinguishes.  [OperationalError msg]
    carries [str(e)]. *)
Inductive exn : Type :=
| OperationalError (msg : string)
| IntegrityError
| KeyError (key : string).

Inductive outcome (A : Type) : Type :=
| Return (a : A)
| Raise (e : exn).
Arguments Return {A} a.
Arguments Raise {A} e.

(** Python's [needle in hay] on [str]. *)
Fixpoint str_in (needle hay : string) : bool :=
  String.prefix needle hay ||
  match hay with
  | EmptyString => false
  | String _ rest => str_in needle rest
  end.

(** The test of line 82 on the text of the error. *)
Definition lost_connection (msg : string) : bool :=
  str_in "Lost connection to MySQL server" msg.

(** An exception that [execute_with_retry] treats as a transient
    connectivity failure. *)
Definition transient (e : exn) : bool :=
  match e with
  | OperationalError msg => lost_connection msg
  | _ => false
  end.

(** ** The retry wrapper *)

(** Observable steps of one run of [execute_with_retry]: a call of the wrapped
    function (tagged with the loop variable), the progress line printed before
    a retry, and [time.sleep(delay)]. *)
Inductive event : Type :=
| Called (attempt : nat)
| Printed (attempt_no max_retries : nat)
| Slept (delay : nat).

(** What a run leaves: the value returned or exception raised ([Return None]
    is Python's implicit [None] when the loop body never runs), the final
    state and the steps taken. *)
Record Run (W A : Type) : Type := mkRun {
  result : outcome (option A);
  final : W;
  trace : list event
}.
Arguments mkRun {W A} result final trace.
Arguments result {W A} r.
Arguments final {W A} r.
Arguments trace {W A} r.

Definition default_max_retries : nat := 3.
Definition default_delay : nat := 2.

Section Retry.
Context {W A : Type}.
Variable func : W -> outcome A * W.
Variables max_retries delay : nat.

(** The [for attempt in range(max_retries)] loop, over the attempts that
    remain. *)
Fixpoint retry_loop (attempts : list nat) (w : W) : Run W A :=
  match attempts with
  | [] => mkRun (Return None) w []
  | attempt :: rest =>
      match func w with
      | (Return a, w1) => mkRun (Return (Some a)) w1 [Called attempt]
      | (Raise (OperationalError msg), w1) =>
          if lost_connection msg
             && (Z.of_nat attempt <? Z.of_nat max_retries - 1)
          then
            let r := retry_loop rest w1 in
            mkRun (result r) (final r)
                  (Called attempt :: Printed (attempt + 1) max_retries
                     :: Slept delay :: trace r)
          else mkRun (Raise (OperationalError msg)) w1 [Called attempt]
      | (Raise e, w1) => mkRun (Raise e) w1 [Called attempt]
      end
  end.

Definition execute_with_retry (w : W) : Run W A :=
  retry_loop (seq 0 max_retries) w.
End Retry.

(** Number of calls of the wrapped function in a trace, and the delays slept
    between them. *)
Fixpoint calls (tr : list event) : nat :=
  match tr with
  | [] => 0%nat
  | Called _ :: tr' => S (calls tr')
  | _ :: tr' => calls tr'
  end.

Fixpoint delays (tr : list event) : list nat :=
  match tr with
  | [] => []
  | Slept d :: tr' => d :: delays tr'
  | _ :: tr' => delays tr'
  end.

(** ** Data model *)

(** Arithmetic of the [Float] columns as the code uses it: conversion of a
    Python [int] ([int * float], the start value [0] of [sum]), addition and
    multiplication. *)
Class FloatArith (F : Type) : Type := {
  float_of_int : Z -> F;
  fadd : F -> F -> F;
  fmul : F -> F -> F
}.

(** The fixed texts of the responses, one constructor per string literal of
    app.py (translated); an f-string keeps its interpolated value. *)
Inductive text : Type :=
| DrugAdded                       (* 'message', line 137 *)
| DrugExists                      (* 'error', line 142 *)
| AddDrugFailed (e : exn)         (* 'error', line 144, with str(e) *)
| DrugNotFound                    (* 'error', lines 152 163 180 370 *)
| DrugUpdated                     (* 'message', line 171 *)
| DrugHasDetails                  (* 'error', line 186 *)
| DrugDeleted                     (* 'message', line 192 *)
| DoctorAdded                     (* 'message', line 216 *)
| DoctorIdExists                  (* 'error', line 221 *)
| AddDoctorFailed (e : exn)       (* 'error', line 223, with str(e) *)
| DoctorNotFound                  (* 'error', lines 231 242 257 301 *)
| DoctorUpdated                   (* 'message', line 248 *)
| DoctorHasPrescriptions          (* 'error', line 263 *)
| DoctorDeleted                   (* 'message', line 269 *)
| PrescriptionIdEmpty             (* 'error', line 288 *)
| DoctorIdEmpty                   (* 'error', line 290 *)
| PrescriptionIdExists            (* 'error', line 296 *)
| PrescriptionCreated             (* 'message', line 309 *)
| CreatePrescriptionFailed (e : exn) (* 'error', line 315, with str(e) *)
| PrescriptionNotFound            (* 'error', lines 323 332 365 402 *)
| PrescriptionDeleted             (* 'message', line 339 *)
| DrugNameEmpty                   (* 'error', line 357 *)
| QuantityNotPositive             (* 'error', line 359 *)
| StockInsufficient (stock : Z)   (* 'error', line 374, with drug.stock *)
| DetailAdded                     (* 'message', line 389 *)
| AddDetailFailed (e : exn)       (* 'error', line 395, with str(e) *)
| TotalCalculated.                (* 'message', line 409 *)

(** The JSON values the handlers build. *)
#[warnings="-register-all"]
Inductive json (F : Type) : Type :=
| JInt (z : Z)
| JFloat (x : F)
| JStr (s : string)
| JText (t : text)
| JList (l : list (json F))
| JDict (kvs : list (string * json F)).
Arguments JInt {F} z.
Arguments JFloat {F} x.
Arguments JStr {F} s.
Arguments JText {F} t.
Arguments JList {F} l.
Arguments JDict {F} kvs.

(** A view's return value: [jsonify(...)] and the status code (200 when the
    view returns the body alone). *)
Definition Response (F : Type) : Type := (json F * nat)%type.

Module Drug.
(** Row of [drugs] under its key [drug_name]. *)
Record t (F : Type) : Type := mk { price : F; stock : Z }.
Arguments mk {F} price stock.
Arguments price {F} _.
Arguments stock {F} _.

Definition to_dict {F} (drug_name : string) (d : t F) : json F :=
  JDict [("drug_name", JStr drug_name); ("price", JFloat (price d));
         ("stock", JInt (stock d))].
End Drug.

Module Doctor.
(** Row of [doctors] under its key [doctor_id]. *)
Record t : Type := mk { doctor_name : string }.

Definition to_dict {F} (doctor_id : string) (d : t) : json F :=
  JDict [("doctor_id", JStr doctor_id); ("doctor_name", JStr (doctor_name d))].
End Doctor.

Module Prescription.
(** Row of [prescriptions] under its key [prescription_id]. *)
Record t (F : Type) : Type := mk { doctor_id : string; total_fee : F }.
Arguments mk {F} doctor_id total_fee.
Arguments doctor_id {F} _.
Arguments total_fee {F} _.

Definition to_dict {F} (prescription_id : string) (p : t F) : json F :=
  JDict [("prescription_id", JStr prescription_id);
         ("doctor_id", JStr (doctor_id p)); ("total_fee", JFloat (total_fee p))].
End Prescription.

Module PrescriptionDetail.
(** Row of [prescription_details], with its generated [id]. *)
Record t (F : Type) : Type := mk {
  id : Z;
  prescription_id : string;
  drug_name : string;
  quantity : Z;
  price : F
}.
Arguments mk {F} id prescription_id drug_name quantity price.
Arguments id {F} _.
Arguments prescription_id {F} _.
Arguments drug_name {F} _.
Arguments quantity {F} _.
Arguments price {F} _.

Definition to_dict {F} (d : t F) : json F :=
  JDict [("id", JInt (id d)); ("prescription_id", JStr (prescription_id d));
         ("drug_name", JStr (drug_name d)); ("quantity", JInt (quantity d));
         ("price", JFloat (price d))].
End PrescriptionDetail.

(** Request bodies ([request.get_json()]); [None] is an absent key. *)
Module DrugData.
Record t (F : Type) : Type := mk {
  drug_name : option string;
  price : option F;
  stock : option Z
}.
Arguments mk {F} drug_name price stock.
Arguments drug_name {F} _.
Arguments price {F} _.
Arguments stock {F} _.
End DrugData.

Module DoctorData.
Record t : Type := mk {
  doctor_id : option string;
  doctor_name : option string
}.
End DoctorData.

Module PrescriptionData.
Record t : Type := mk {
  prescription_id : option string;
  doctor_id : option string
}.
End PrescriptionData.

Module DetailData.
Record t : Type := mk {
  drug_name : option string;
  quantity : option Z
}.
End DetailData.

(** The database. *)
Record Store (F : Type) : Type := mkStore {
  drugs : gmap string (Drug.t F);
  doctors : gmap string Doctor.t;
  prescriptions : gmap string (Prescription.t F);
  prescription_details : list (PrescriptionDetail.t F);
  next_detail_id : Z
}.
Arguments mkStore {F} drugs doctors prescriptions prescription_details
  next_detail_id.
Arguments drugs {F} _.
Arguments doctors {F} _.
Arguments prescriptions {F} _.
Arguments prescription_details {F} _.
Arguments next_detail_id {F} _.

(** ** Request handlers *)

Section Handlers.
Context {F : Type} `{FloatArith F}.

Definition set_drugs (m : gmap string (Drug.t F)) (s : Store F) : Store F :=
  mkStore m (doctors s) (prescriptions s) (prescription_details s)
          (next_detail_id s).

Definition set_doctors (m : gmap string Doctor.t) (s : Store F) : Store F :=
  mkStore (drugs s) m (prescriptions s) (prescription_details s)
          (next_detail_id s).

Definition set_prescriptions (m : gmap string (Prescription.t F))
    (s : Store F) : Store F :=
  mkStore (drugs s) (doctors s) m (prescription_details s) (next_detail_id s).

(** [jsonify({'error': t}), status] and [jsonify({'message': t})]. *)
Definition error (t : text) (status : nat) : Response F :=
  (JDict [("error", JText t)], status).

Definition message (t : text) : Response F :=
  (JDict [("message", JText t)], 200%nat).

(** A view that returns before reaching [execute_with_retry]. *)
Definition respond (r : Response F) (s : Store F) : Run (Store F) (Response F) :=
  mkRun (Return (Some r)) s [].

(** [db.session.rollback()]: nothing uncommitted survives in [Store]. *)
Definition rollback (s : Store F) : Store F := s.

(** Python truthiness of [data.get(key)] for a string and for an int. *)
Definition truthy_str (o : option string) : bool :=
  match o with
  | Some s => negb (String.eqb s "")
  | None => false
  end.

Definition truthy_int (o : option Z) : bool :=
  match o with
  | Some z => negb (z =? 0)
  | None => false
  end.

(** [sum(xs)]: accumulation from the start value [0], left to right. *)
Definition py_sum (xs : list F) : F := fold_left fadd xs (float_of_int 0).

Definition details_of (prescription_id : string) (s : Store F)
    : list (PrescriptionDetail.t F) :=
  filter (λ d, PrescriptionDetail.prescription_id d = prescription_id)
         (prescription_details s).

Definition details_with_drug (drug_name : string) (s : Store F)
    : list (PrescriptionDetail.t F) :=
  filter (λ d, PrescriptionDetail.drug_name d = drug_name)
         (prescription_details s).

Definition prescriptions_of (doctor_id : string) (s : Store F)
    : list (string * Prescription.t F) :=
  filter (λ kp, Prescription.doctor_id kp.2 = doctor_id)
         (map_to_list (prescriptions s)).

(** *** Drugs *)

Definition query_drugs (s : Store F) : outcome (Response F) * Store F :=
  (Return (JList ((λ kd, Drug.to_dict kd.1 kd.2) <$> map_to_list (drugs s)),
           200%nat), s).

Definition get_drugs (s : Store F) : Run (Store F) (Response F) :=
  execute_with_retry query_drugs default_max_retries default_delay s.

Definition insert_drug (data : DrugData.t F) (s : Store F)
    : outcome (Response F) * Store F :=
  match DrugData.drug_name data with
  | None => (Raise (KeyError "drug_name"), s)
  | Some name =>
    match DrugData.price data with
    | None => (Raise (KeyError "price"), s)
    | Some price =>
      match DrugData.stock data with
      | None => (Raise (KeyError "stock"), s)
      | Some stock =>
        let drug := Drug.mk price stock in
        match drugs s !! name with
        | Some _ => (Raise IntegrityError, s)
        | None =>
          (Return (JDict [("message", JText DrugAdded);
                          ("drug", Drug.to_dict name drug)], 200%nat),
           set_drugs (<[name := drug]> (drugs s)) s)
        end
      end
    end
  end.

Definition add_drug (data : DrugData.t F) (s : Store F)
    : Run (Store F) (Response F) :=
  let r := execute_with_retry (insert_drug data) default_max_retries
                              default_delay s in
  match result r with
  | Return _ => r
  | Raise IntegrityError =>
      mkRun (Return (Some (error DrugExists 400))) (final r) (trace r)
  | Raise e =>
      mkRun (Return (Some (error (AddDrugFailed e) 500))) (final r) (trace r)
  end.

Definition query_drug (drug_name : string) (s : Store F)
    : outcome (Response F) * Store F :=
  match drugs s !! drug_name with
  | Some drug => (Return (Drug.to_dict drug_name drug, 200%nat), s)
  | None => (Return (error DrugNotFound 404), s)
  end.

Definition get_drug (drug_name : string) (s : Store F)
    : Run (Store F) (Response F) :=
  execute_with_retry (query_drug drug_name) default_max_retries
                     default_delay s.

Definition update_drug_row (data : DrugData.t F) (drug : Drug.t F) : Drug.t F :=
  let drug1 :=
    match DrugData.price data with
    | Some price => Drug.mk price (Drug.stock drug)
    | None => drug
    end in
  match DrugData.stock data with
  | Some stock => Drug.mk (Drug.price drug1) stock
  | None => drug1
  end.

Definition update_drug_closure (drug_name : string) (data : DrugData.t F)
    (s : Store F) : outcome (Response F) * Store F :=
  match drugs s !! drug_name with
  | None => (Return (error DrugNotFound 404), s)
  | Some drug =>
    let drug' := update_drug_row data drug in
    (Return (JDict [("message", JText DrugUpdated);
                    ("drug", Drug.to_dict drug_name drug')], 200%nat),
     set_drugs (<[drug_name := drug']> (drugs s)) s)
  end.

Definition update_drug (drug_name : string) (data : DrugData.t F)
    (s : Store F) : Run (Store F) (Response F) :=
  execute_with_retry (update_drug_closure drug_name data)
                     default_max_retries default_delay s.

Definition delete_drug_closure (drug_name : string) (s : Store F)
    : outcome (Response F) * Store F :=
  match drugs s !! drug_name with
  | None => (Return (error DrugNotFound 404), s)
  | Some drug =>
    match details_with_drug drug_name s with
    | (_ :: _) as details =>
      (Return (JDict [("error", JText DrugHasDetails);
                      ("detail_count", JInt (Z.of_nat (length details)))],
               400%nat), s)
    | [] =>
      (Return (message DrugDeleted),
       set_drugs (delete drug_name (drugs s)) s)
    end
  end.

Definition delete_drug (drug_name : string) (s : Store F)
    : Run (Store F) (Response F) :=
  execute_with_retry (delete_drug_closure drug_name) default_max_retries
                     default_delay s.

(** *** Doctors *)

Definition query_doctors (s : Store F) : outcome (Response F) * Store F :=
  (Return (JList ((λ kd, Doctor.to_dict kd.1 kd.2)
                    <$> map_to_list (doctors s)), 200%nat), s).

Definition get_doctors (s : Store F) : Run (Store F) (Response F) :=
  execute_with_retry query_doctors default_max_retries default_delay s.

Definition insert_doctor (data : DoctorData.t) (s : Store F)
    : outcome (Response F) * Store F :=
  match DoctorData.doctor_id data with
  | None => (Raise (KeyError "doctor_id"), s)
  | Some doctor_id =>
    match DoctorData.doctor_name data with
    | None => (Raise (KeyError "doctor_name"), s)
    | Some doctor_name =>
      let doctor := Doctor.mk doctor_name in
      match doctors s !! doctor_id with
      | Some _ => (Raise IntegrityError, s)
      | None =>
        (Return (JDict [("message", JText DoctorAdded);
                        ("doctor", Doctor.to_dict doctor_id doctor)], 200%nat),
         set_doctors (<[doctor_id := doctor]> (doctors s)) s)
      end
    end
  end.

Definition add_doctor (data : DoctorData.t) (s : Store F)
    : Run (Store F) (Response F) :=
  let r := execute_with_retry (insert_doctor data) default_max_retries
                              default_delay s in
  match result r with
  | Return _ => r
  | Raise IntegrityError =>
      mkRun (Return (Some (error DoctorIdExists 400))) (final r) (trace r)
  | Raise e =>
      mkRun (Return (Some (error (AddDoctorFailed e) 500))) (final r) (trace r)
  end.

Definition query_doctor (doctor_id : string) (s : Store F)
    : outcome (Response F) * Store F :=
  match doctors s !! doctor_id with
  | Some doctor => (Return (Doctor.to_dict doctor_id doctor, 200%nat), s)
  | None => (Return (error DoctorNotFound 404), s)
  end.

Definition get_doctor (doctor_id : string) (s : Store F)
    : Run (Store F) (Response F) :=
  execute_with_retry (query_doctor doctor_id) default_max_retries
                     default_delay s.

Definition update_doctor_closure (doctor_id : string) (data : DoctorData.t)
    (s : Store F) : outcome (Response F) * Store F :=
  match doctors s !! doctor_id with
  | None => (Return (error DoctorNotFound 404), s)
  | Some doctor =>
    let doctor' :=
      match DoctorData.doctor_name data with
      | Some doctor_name => Doctor.mk doctor_name
      | None => doctor
      end in
    (Return (JDict [("message", JText DoctorUpdated);
                    ("doctor", Doctor.to_dict doctor_id doctor')], 200%nat),
     set_doctors (<[doctor_id := doctor']> (doctors s)) s)
  end.

Definition update_doctor (doctor_id : string) (data : DoctorData.t)
    (s : Store F) : Run (Store F) (Response F) :=
  execute_with_retry (update_doctor_closure doctor_id data)
                     default_max_retries default_delay s.

Definition delete_doctor_closure (doctor_id : string) (s : Store F)
    : outcome (Response F) * Store F :=
  match doctors s !! doctor_id with
  | None => (Return (error DoctorNotFound 404), s)
  | Some doctor =>
    match prescriptions_of doctor_id s with
    | (_ :: _) as found =>
      (Return (JDict [("error", JText DoctorHasPrescriptions);
                      ("prescription_count", JInt (Z.of_nat (length found)))],
               400%nat), s)
    | [] =>
      (Return (message DoctorDeleted),
       set_doctors (delete doctor_id (doctors s)) s)
    end
  end.

Definition delete_doctor (doctor_id : string) (s : Store F)
    : Run (Store F) (Response F) :=
  execute_with_retry (delete_doctor_closure doctor_id) default_max_retries
                     default_delay s.
(** *** Prescriptions *)

Definition query_prescriptions (s : Store F)
    : outcome (Response F) * Store F :=
  (Return (JList ((λ kp, Prescription.to_dict kp.1 kp.2)
                    <$> map_to_list (prescriptions s)), 200%nat), s).

Definition get_prescriptions (s : Store F) : Run (Store F) (Response F) :=
  execute_with_retry query_prescriptions default_max_retries default_delay s.

Definition insert_prescription (data : PrescriptionData.t) (s : Store F)
    : outcome (Response F) * Store F :=
  match PrescriptionData.prescription_id data with
  | None => (Raise (KeyError "prescription_id"), s)
  | Some prescription_id =>
    match prescriptions s !! prescription_id with
    | Some _ => (Return (error PrescriptionIdExists 400), s)
    | None =>
      match PrescriptionData.doctor_id data with
      | None => (Raise (KeyError "doctor_id"), s)
      | Some doctor_id =>
        match doctors s !! doctor_id with
        | None => (Return (error DoctorNotFound 400), s)
        | Some _ =>
          let prescription := Prescription.mk doctor_id (float_of_int 0) in
          (Return (JDict [("message", JText PrescriptionCreated);
                          ("prescription",
                           Prescription.to_dict prescription_id prescription)],
                   200%nat),
           set_prescriptions
             (<[prescription_id := prescription]> (prescriptions s)) s)
        end
      end
    end
  end.

Definition add_prescription (data : PrescriptionData.t) (s : Store F)
    : Run (Store F) (Response F) :=
  if negb (truthy_str (PrescriptionData.prescription_id data))
  then respond (error PrescriptionIdEmpty 400) s
  else if negb (truthy_str (PrescriptionData.doctor_id data))
  then respond (error DoctorIdEmpty 400) s
  else
    let r := execute_with_retry (insert_prescription data)
                                default_max_retries default_delay s in
    match result r with
    | Return _ => r
    | Raise e =>
        mkRun (Return (Some (error (CreatePrescriptionFailed e) 500)))
              (rollback (final r)) (trace r)
    end.

Definition query_prescription (prescription_id : string) (s : Store F)
    : outcome (Response F) * Store F :=
  match prescriptions s !! prescription_id with
  | Some prescription =>
      (Return (Prescription.to_dict prescription_id prescription, 200%nat), s)
  | None => (Return (error PrescriptionNotFound 404), s)
  end.

Definition get_prescription (prescription_id : string) (s : Store F)
    : Run (Store F) (Response F) :=
  execute_with_retry (query_prescription prescription_id)
                     default_max_retries default_delay s.

Definition delete_prescription_closure (prescription_id : string)
    (s : Store F) : outcome (Response F) * Store F :=
  match prescriptions s !! prescription_id with
  | None => (Return (error PrescriptionNotFound 404), s)
  | Some prescription =>
    (Return (message PrescriptionDeleted),
     mkStore (drugs s) (doctors s)
             (delete prescription_id (prescriptions s))
             (filter (λ d, PrescriptionDetail.prescription_id d
                             ≠ prescription_id)
                     (prescription_details s))
             (next_detail_id s))
  end.

Definition delete_prescription (prescription_id : string) (s : Store F)
    : Run (Store F) (Response F) :=
  execute_with_retry (delete_prescription_closure prescription_id)
                     default_max_retries default_delay s.

(** *** Prescription details *)

Definition query_details (prescription_id : string) (s : Store F)
    : outcome (Response F) * Store F :=
  (Return (JList (PrescriptionDetail.to_dict <$> details_of prescription_id s),
           200%nat), s).

Definition get_prescription_details (prescription_id : string) (s : Store F)
    : Run (Store F) (Response F) :=
  execute_with_retry (query_details prescription_id) default_max_retries
                     default_delay s.

Definition insert_detail (prescription_id : string) (data : DetailData.t)
    (s : Store F) : outcome (Response F) * Store F :=
  match prescriptions s !! prescription_id with
  | None => (Return (error PrescriptionNotFound 400), s)
  | Some _ =>
    match DetailData.drug_name data with
    | None => (Raise (KeyError "drug_name"), s)
    | Some drug_name =>
      match drugs s !! drug_name with
      | None => (Return (error DrugNotFound 400), s)
      | Some drug =>
        match DetailData.quantity data with
        | None => (Raise (KeyError "quantity"), s)
        | Some quantity =>
          if Drug.stock drug <? quantity
          then (Return (error (StockInsufficient (Drug.stock drug)) 400), s)
          else
            let detail :=
              PrescriptionDetail.mk (next_detail_id s) prescription_id
                                    drug_name quantity (Drug.price drug) in
            (Return (JDict [("message", JText DetailAdded);
                            ("detail", PrescriptionDetail.to_dict detail)],
                     200%nat),
             mkStore (<[drug_name := Drug.mk (Drug.price drug)
                                        (Drug.stock drug - quantity)]>
                        (drugs s))
                     (doctors s) (prescriptions s)
                     (prescription_details s ++ [detail])
                     (next_detail_id s + 1))
        end
      end
    end
  end.

Definition add_prescription_detail (prescription_id : string)
    (data : DetailData.t) (s : Store F) : Run (Store F) (Response F) :=
  if negb (truthy_str (DetailData.drug_name data))
  then respond (error DrugNameEmpty 400) s
  else if negb (truthy_int (DetailData.quantity data))
          || match DetailData.quantity data with
             | Some quantity => quantity <=? 0
             | None => false
             end
  then respond (error QuantityNotPositive 400) s
  else
    let r := execute_with_retry (insert_detail prescription_id data)
                                default_max_retries default_delay s in
    match result r with
    | Return _ => r
    | Raise e =>
        mkRun (Return (Some (error (AddDetailFailed e) 500)))
              (rollback (final r)) (trace r)
    end.

(** [detail.quantity * detail.price]. *)
Definition line_fee (d : PrescriptionDetail.t F) : F :=
  fmul (float_of_int (PrescriptionDetail.quantity d))
       (PrescriptionDetail.price d).

Definition calculate (prescription_id : string) (s : Store F)
    : outcome (Response F) * Store F :=
  match prescriptions s !! prescription_id with
  | None => (Return (error PrescriptionNotFound 404), s)
  | Some prescription =>
    let details := details_of prescription_id s in
    let total_fee := py_sum (line_fee <$> details) in
    (Return (JDict [("message", JText TotalCalculated);
                    ("total_fee", JFloat total_fee)], 200%nat),
     set_prescriptions
       (<[prescription_id :=
            Prescription.mk (Prescription.doctor_id prescription) total_fee]>
          (prescriptions s)) s)
  end.

Definition calculate_prescription (prescription_id : string) (s : Store F)
    : Run (Store F) (Response F) :=
  execute_with_retry (calculate prescription_id) default_max_retries
                     default_delay s.

(** *** The routes *)

Inductive Request : Type :=
| GET_drugs
| POST_drugs (data : DrugData.t F)
| GET_drug (drug_name : string)
| PUT_drug (drug_name : string) (data : DrugData.t F)
| DELETE_drug (drug_name : string)
| GET_doctors
| POST_doctors (data : DoctorData.t)
| GET_doctor (doctor_id : string)
| PUT_doctor (doctor_id : string) (data : DoctorData.t)
| DELETE_doctor (doctor_id : string)
| GET_prescriptions
| POST_prescriptions (data : PrescriptionData.t)
| GET_prescription (prescription_id : string)
| DELETE_prescription (prescription_id : string)
| GET_details (prescription_id : string)
| POST_details (prescription_id : string) (data : DetailData.t)
| POST_calculate (prescription_id : string).

Definition handle (req : Request) (s : Store F) : Run (Store F) (Response F) :=
  match req with
  | GET_drugs => get_drugs s
  | POST_drugs data => add_drug data s
  | GET_drug drug_name => get_drug drug_name s
  | PUT_drug drug_name data => update_drug drug_name data s
  | DELETE_drug drug_name => delete_drug drug_name s
  | GET_doctors => get_doctors s
  | POST_doctors data => add_doctor data s
  | GET_doctor doctor_id => get_doctor doctor_id s
  | PUT_doctor doctor_id data => update_doctor doctor_id data s
  | DELETE_doctor doctor_id => delete_doctor doctor_id s
  | GET_prescriptions => get_prescriptions s
  | POST_prescriptions data => add_prescription data s
  | GET_prescription prescription_id => get_prescription prescription_id s
  | DELETE_prescription prescription_id =>
      delete_prescription prescription_id s
  | GET_details prescription_id => get_prescription_details prescription_id s
  | POST_details prescription_id data =>
      add_prescription_detail prescription_id data s
  | POST_calculate prescription_id => calculate_prescription prescription_id s
  end.

(** The invariant I2: no drug has a negative stock. *)
Definition stock_nonneg (s : Store F) : Prop :=
  ∀ name drug, drugs s !! name = Some drug → 0 <= Drug.stock drug.

(** The stock a request asks to store, if any. *)
Definition supplied_stock (req : Request) : option Z :=
  match req with
  | POST_drugs data | PUT_drug _ data => DrugData.stock data
  | _ => None
  end.
End Handlers.

(** ** Reading a run *)

(** The status code of the response a run produced, if it produced one. *)
Definition status {W F : Type} (r : Run W (Response F)) : option nat :=
  match result r with
  | Return (Some resp) => Some resp.2
  | _ => None
  end.

(** ** The total fee as the specification words it *)

Section SpecTotal.
Context {F : Type} `{FloatArith F}.

(** One pass over the detail table that adds quantity times price of every
    row of the prescription to a running total. *)
Fixpoint running_total (acc : F) (prescription_id : string)
    (rows : list (PrescriptionDetail.t F)) : F :=
  match rows with
  | [] => acc
  | d :: rows' =>
      if decide (PrescriptionDetail.prescription_id d = prescription_id)
      then running_total
             (fadd acc (fmul (float_of_int (PrescriptionDetail.quantity d))
                             (PrescriptionDetail.price d)))
             prescription_id rows'
      else running_total acc prescription_id rows'
  end.

(** Sum over the prescription's details of quantity times the stored price;
    0 when it has none. *)
Definition spec_total (prescription_id : string) (s : Store F) : F :=
  running_total (float_of_int 0) prescription_id (prescription_details s).
End SpecTotal.

(** ** The number of rows that name a drug, as the specification words it *)

(** One pass over the detail table that counts the rows whose [drug_name] is
    the given one. *)
Fixpoint rows_naming_drug {F : Type} (drug_name : string)
    (rows : list (PrescriptionDetail.t F)) : nat :=
  match rows with
  | [] => 0%nat
  | d :: rows' =>
      if decide (PrescriptionDetail.drug_name d = drug_name)
      then S (rows_naming_drug drug_name rows')
      else rows_naming_drug drug_name rows'
  end.

(** ** An exact arithmetic and a small database, for the examples *)

#[global] Instance exact_arith : FloatArith Q :=
  {| float_of_int := inject_Z; fadd := Qplus; fmul := Qmult |}.

(** Doctor D1; prescription P1 with the two lines of the fee example of the
    specification; drugs Aspirin (price 2, stock 10), Codeine (price 5,
    stock 8), Zinc (price 3/2, stock 7) and a drug whose name is the empty
    string (price 1, stock 5). *)
Definition example_store : Store Q :=
  mkStore
    {[ "Aspirin" := Drug.mk (2 # 1)%Q 10; "Codeine" := Drug.mk (5 # 1)%Q 8;
       "Zinc" := Drug.mk (3 # 2)%Q 7; "" := Drug.mk (1 # 1)%Q 5 ]}
    {[ "D1" := Doctor.mk "Alice"; "D2" := Doctor.mk "Bob" ]}
    {[ "P1" := Prescription.mk "D1" (0 # 1)%Q ]}
    [ PrescriptionDetail.mk 1 "P1" "Codeine" 2 (5 # 1)%Q;
      PrescriptionDetail.mk 2 "P1" "Zinc" 3 (3 # 2)%Q ]
    3.

(** ** Sequences of requests and the integrity of the database *)

Section Integrity.
Context {F : Type} `{FloatArith F}.

(** The tables as [db.create_all()] makes them: empty, the first generated
    detail id being 1. *)
Definition empty_store : Store F := mkStore ∅ ∅ ∅ [] 1.

(** The store after serving the requests one after the other. *)
Definition serve (reqs : list (Request (F := F))) (s : Store F) : Store F :=
  fold_left (λ s' req, final (handle req s')) reqs s.

(** Every prescription names a doctor that exists. *)
Definition prescriptions_have_doctor (s : Store F) : Prop :=
  ∀ prescription_id p,
    prescriptions s !! prescription_id = Some p →
    is_Some (doctors s !! Prescription.doctor_id p).

(** Every detail row names a prescription and a drug that exist. *)
Definition details_have_parents (s : Store F) : Prop :=
  ∀ d, d ∈ prescription_details s →
    is_Some (prescriptions s !! PrescriptionDetail.prescription_id d)
    ∧ is_Some (drugs s !! PrescriptionDetail.drug_name d).

(** The generated ids are pairwise different and below the next one. *)
Definition detail_ids_fresh (s : Store F) : Prop :=
  NoDup (PrescriptionDetail.id <$> prescription_details s)
  ∧ ∀ d, d ∈ prescription_details s →
      PrescriptionDetail.id d < next_detail_id s.

(** Units of a drug on the detail rows, and in stock (0 for no such drug). *)
Definition booked (drug_name : string) (s : Store F) : Z :=
  foldr (λ d acc, PrescriptionDetail.quantity d + acc) 0
        (details_with_drug drug_name s).

Definition in_stock (drug_name : string) (s : Store F) : Z :=
  match drugs s !! drug_name with
  | Some drug => Drug.stock drug
  | None => 0
  end.
End Integrity.

(** * Properties *)

(** ** The retry loop, for any bound and any unit of work *)

Section RetryFacts.
Context {W A : Type}.
Variable func : W -> outcome A * W.
Variables max_retries delay : nat.

Local Abbreviation loop := (retry_loop func max_retries delay).

(** One iteration, by cases on what the call does. *)
Lemma retry_loop_return attempt rest w a w1 :
  func w = (Return a, w1) →
  loop (attempt :: rest) w = mkRun (Return (Some a)) w1 [Called attempt].
Proof. intros Hf. simpl. by rewrite Hf. Qed.

Lemma retry_loop_raise_now attempt rest w e w1 :
  func w = (Raise e, w1) →
  transient e && (Z.of_nat attempt <? Z.of_nat max_retries - 1) = false →
  loop (attempt :: rest) w = mkRun (Raise e) w1 [Called attempt].
Proof.
  intros Hf Hc. simpl. rewrite Hf.
  destruct e as [msg| |key]; simpl in Hc; [by rewrite Hc|done..].
Qed.

Lemma retry_loop_again attempt rest w e w1 :
  func w = (Raise e, w1) →
  transient e && (Z.of_nat attempt <? Z.of_nat max_retries - 1) = true →
  loop (attempt :: rest) w =
    mkRun (result (loop rest w1)) (final (loop rest w1))
          (Called attempt :: Printed (attempt + 1) max_retries
             :: Slept delay :: trace (loop rest w1)).
Proof.
  intros Hf Hc. simpl. rewrite Hf.
  destruct e as [msg| |key]; simpl in Hc; [by rewrite Hc|done..].
Qed.

(** The three cases are exhaustive. *)
Lemma retry_loop_cases attempt rest w :
  (∃ a w1, func w = (Return a, w1) ∧
     loop (attempt :: rest) w = mkRun (Return (Some a)) w1 [Called attempt])
  ∨ (∃ e w1, func w = (Raise e, w1) ∧
       transient e && (Z.of_nat attempt <? Z.of_nat max_retries - 1) = false ∧
       loop (attempt :: rest) w = mkRun (Raise e) w1 [Called attempt])
  ∨ (∃ e w1, func w = (Raise e, w1) ∧
       transient e && (Z.of_nat attempt <? Z.of_nat max_retries - 1) = true ∧
       loop (attempt :: rest) w =
         mkRun (result (loop rest w1)) (final (loop rest w1))
               (Called attempt :: Printed (attempt + 1) max_retries
                  :: Slept delay :: trace (loop rest w1))).
Proof.
  destruct (func w) as [[a|e] w1] eqn:Hf.
  - left. eauto using retry_loop_return.
  - destruct (transient e && (Z.of_nat attempt <? Z.of_nat max_retries - 1))
      eqn:Hc.
    + right; right. eauto 6 using retry_loop_again.
    + right; left. eauto 6 using retry_loop_raise_now.
Qed.

(** The wrapped function is called at most once per remaining attempt. *)
Lemma retry_loop_calls_le attempts w :
  (calls (trace (loop attempts w)) ≤ length attempts)%nat.
Proof.
  revert w. induction attempts as [|attempt rest IH]; intros w; [done|].
  destruct (retry_loop_cases attempt rest w)
    as [(a & w1 & _ & ->)|[(e & w1 & _ & _ & ->)|(e & w1 & _ & _ & ->)]];
    simpl; [lia..|].
  specialize (IH w1). lia.
Qed.

(** ... and at least once when an attempt remains. *)
Lemma retry_loop_calls_pos attempt rest w :
  (1 ≤ calls (trace (loop (attempt :: rest) w)))%nat.
Proof.
  destruct (retry_loop_cases attempt rest w)
    as [(a & w1 & _ & ->)|[(e & w1 & _ & _ & ->)|(e & w1 & _ & _ & ->)]];
    simpl; lia.
Qed.

(** Between two calls the loop sleeps once, always for [delay]. *)
Lemma retry_loop_delays first count w :
  (first + count)%nat = max_retries →
  delays (trace (loop (seq first count) w))
  = replicate (calls (trace (loop (seq first count) w)) - 1) delay.
Proof.
  revert first w. induction count as [|count IH]; intros first w Hm; [done|].
  simpl seq.
  destruct (retry_loop_cases first (seq (S first) count) w)
    as [(a & w1 & _ & ->)|[(e & w1 & _ & _ & ->)|(e & w1 & _ & Hc & ->)]];
    simpl; [done..|].
  rewrite IH by lia. destruct count as [|count'].
  - apply andb_true_iff in Hc as [_ Hc]. apply Z.ltb_lt in Hc. lia.
  - pose proof (retry_loop_calls_pos (S first) (seq (S (S first)) count') w1)
      as Hpos.
    simpl seq.
    destruct (calls (trace (loop (S first :: seq (S (S first)) count') w1)))
      as [|n]; [lia|].
    simpl. by rewrite Nat.sub_0_r.
Qed.



End RetryFacts.

(** ** The wrapper as the handlers call it: three attempts, two seconds *)

Section RetryDefault.
Context {W A : Type}.
Variable func : W -> outcome A * W.

Local Abbreviation retry :=
  (execute_with_retry func default_max_retries default_delay).

Lemma execute_with_retry_return w a w1 :
  func w = (Return a, w1) →
  retry w = mkRun (Return (Some a)) w1 [Called 0].
Proof. apply retry_loop_return. Qed.

Lemma execute_with_retry_raise w e w1 :
  func w = (Raise e, w1) →
  transient e = false →
  retry w = mkRun (Raise e) w1 [Called 0].
Proof.
  intros Hf Ht. apply retry_loop_raise_now; [done|]. by rewrite Ht.
Qed.






End RetryDefault.


(** ** The handlers *)

Section HandlerFacts.
Context {F : Type} `{FloatArith F}.
Implicit Types (s : Store F).

(** The filter, map and [sum] of [calculate] make the one-pass total. *)
Lemma fold_line_fees_running_total prescription_id
    (rows : list (PrescriptionDetail.t F)) (acc : F) :
  fold_left fadd
    (line_fee <$>
       filter (λ d, PrescriptionDetail.prescription_id d = prescription_id)
              rows) acc
  = running_total acc prescription_id rows.
Proof.
  revert acc. induction rows as [|d rows IH]; intros acc; [done|].
  rewrite filter_cons. simpl. case_decide; [|apply IH].
  rewrite fmap_cons. simpl. apply IH.
Qed.

Lemma py_sum_spec_total prescription_id s :
  py_sum (line_fee <$> details_of prescription_id s)
  = spec_total prescription_id s.
Proof. apply fold_line_fees_running_total. Qed.


(** What [calculate_prescription] does, by cases on the lookup. *)
Lemma calculate_prescription_missing prescription_id s :
  prescriptions s !! prescription_id = None →
  calculate_prescription prescription_id s
  = mkRun (Return (Some (error PrescriptionNotFound 404))) s [Called 0].
Proof.
  intros Hp. apply execute_with_retry_return. unfold calculate.
  by rewrite Hp.
Qed.

Lemma calculate_prescription_found prescription_id s p :
  prescriptions s !! prescription_id = Some p →
  calculate_prescription prescription_id s
  = mkRun
      (Return (Some (JDict [("message", JText TotalCalculated);
                            ("total_fee",
                             JFloat (spec_total prescription_id s))],
                     200%nat)))
      (set_prescriptions
         (<[prescription_id :=
              Prescription.mk (Prescription.doctor_id p)
                              (spec_total prescription_id s)]>
            (prescriptions s)) s)
      [Called 0].
Proof.
  intros Hp. apply execute_with_retry_return. unfold calculate.
  by rewrite Hp, py_sum_spec_total.
Qed.

(** C9.  Two calls of [calculate_prescription] in a row on the same id give
    the same result, and the second leaves the store the first left. *)
Theorem calculate_prescription_twice prescription_id s :
  let r1 := calculate_prescription prescription_id s in
  let r2 := calculate_prescription prescription_id (final r1) in
  result r2 = result r1 ∧ final r2 = final r1.
Proof.
  destruct (prescriptions s !! prescription_id) as [p|] eqn:Hp; simpl.
  - rewrite (calculate_prescription_found _ _ _ Hp). simpl.
    erewrite calculate_prescription_found
      by (simpl; apply lookup_insert_eq).
    simpl. unfold set_prescriptions. simpl.
    by rewrite insert_insert_eq.
  - rewrite (calculate_prescription_missing _ _ Hp). simpl.
    by rewrite (calculate_prescription_missing _ _ Hp).
Qed.







(** The list [delete_doctor] counts has one entry per prescription of the
    doctor. *)
Lemma length_prescriptions_of doctor_id s :
  length (prescriptions_of doctor_id s)
  = size (filter (λ kp : string * Prescription.t F,
                    Prescription.doctor_id kp.2 = doctor_id)
                 (prescriptions s)).
Proof.
  unfold prescriptions_of. rewrite <- length_map_to_list.
  apply Permutation_length, NoDup_Permutation.
  - apply NoDup_filter, NoDup_map_to_list.
  - apply NoDup_map_to_list.
  - intros [k p]. rewrite list_elem_of_filter, !elem_of_map_to_list.
    rewrite map_lookup_filter_Some. tauto.
Qed.

(** The list [delete_drug] counts has one entry per row that names the
    drug. *)
Lemma length_details_with_drug drug_name s :
  length (details_with_drug drug_name s)
  = rows_naming_drug drug_name (prescription_details s).
Proof.
  unfold details_with_drug.
  induction (prescription_details s) as [|d rows IH]; [done|].
  rewrite filter_cons. cbn [rows_naming_drug].
  destruct (decide (PrescriptionDetail.drug_name d = drug_name)); [|done].
  cbn. by rewrite IH.
Qed.

(** C4.  For a drug that exists, [delete_drug] answers 400 with
    [detail_count] equal to the number of rows of [prescription_details]
    that name the drug when there is at least one, and leaves the store as
    it was; when there is none it answers 200 and leaves the store in which
    that drug is gone and every other drug, and every other table, is as
    before.  For a doctor that exists, [delete_doctor] does the same with
    [prescription_count], the number of prescriptions of the doctor. *)
Theorem delete_drug_doctor_guard s :
  (∀ drug_name drug, drugs s !! drug_name = Some drug →
     let n := rows_naming_drug drug_name (prescription_details s) in
     let r := delete_drug drug_name s in
     ((1 ≤ n)%nat →
        r = mkRun (Return (Some (JDict [("error", JText DrugHasDetails);
                                        ("detail_count", JInt (Z.of_nat n))],
                                 400%nat)))
                  s [Called 0])
     ∧ (n = 0%nat →
          r = mkRun (Return (Some (JDict [("message", JText DrugDeleted)],
                                   200%nat)))
                    (mkStore (delete drug_name (drugs s)) (doctors s)
                             (prescriptions s) (prescription_details s)
                             (next_detail_id s))
                    [Called 0]
          ∧ drugs (final r) !! drug_name = None
          ∧ (∀ other, other ≠ drug_name →
               drugs (final r) !! other = drugs s !! other)
          ∧ doctors (final r) = doctors s
          ∧ prescriptions (final r) = prescriptions s
          ∧ prescription_details (final r) = prescription_details s
          ∧ next_detail_id (final r) = next_detail_id s))
  ∧ (∀ doctor_id doctor, doctors s !! doctor_id = Some doctor →
       let n := size (filter (λ kp : string * Prescription.t F,
                                Prescription.doctor_id kp.2 = doctor_id)
                             (prescriptions s)) in
       let r := delete_doctor doctor_id s in
       ((1 ≤ n)%nat →
          r = mkRun (Return (Some (JDict
                                     [("error", JText DoctorHasPrescriptions);
                                      ("prescription_count",
                                       JInt (Z.of_nat n))],
                                   400%nat)))
                    s [Called 0])
       ∧ (n = 0%nat →
            r = mkRun (Return (Some (JDict [("message", JText DoctorDeleted)],
                                     200%nat)))
                      (mkStore (drugs s) (delete doctor_id (doctors s))
                               (prescriptions s) (prescription_details s)
                               (next_detail_id s))
                      [Called 0]
            ∧ doctors (final r) !! doctor_id = None
            ∧ (∀ other, other ≠ doctor_id →
                 doctors (final r) !! other = doctors s !! other)
            ∧ drugs (final r) = drugs s
            ∧ prescriptions (final r) = prescriptions s
            ∧ prescription_details (final r) = prescription_details s
            ∧ next_detail_id (final r) = next_detail_id s)).
Proof.
  split.
  - intros drug_name drug Hd n r. subst n r.
    rewrite <- length_details_with_drug. split; intros Hn.
    + apply execute_with_retry_return. unfold delete_drug_closure.
      rewrite Hd. destruct (details_with_drug drug_name s); simpl in *;
        done || lia.
    + assert (delete_drug drug_name s
              = mkRun (Return (Some (JDict [("message", JText DrugDeleted)],
                                     200%nat)))
                      (mkStore (delete drug_name (drugs s)) (doctors s)
                               (prescriptions s) (prescription_details s)
                               (next_detail_id s))
                      [Called 0]) as ->.
      { apply execute_with_retry_return. unfold delete_drug_closure.
        rewrite Hd. by destruct (details_with_drug drug_name s). }
      cbn [final drugs doctors prescriptions prescription_details
           next_detail_id].
      split; [done|]. split; [apply lookup_delete_eq|].
      split; [|done]. intros other Hne. by apply lookup_delete_ne.
  - intros doctor_id doctor Hd n r. subst n r.
    rewrite <- length_prescriptions_of. split; intros Hn.
    + apply execute_with_retry_return. unfold delete_doctor_closure.
      rewrite Hd. destruct (prescriptions_of doctor_id s); simpl in *;
        done || lia.
    + assert (delete_doctor doctor_id s
              = mkRun (Return (Some (JDict [("message", JText DoctorDeleted)],
                                     200%nat)))
                      (mkStore (drugs s) (delete doctor_id (doctors s))
                               (prescriptions s) (prescription_details s)
                               (next_detail_id s))
                      [Called 0]) as ->.
      { apply execute_with_retry_return. unfold delete_doctor_closure.
        rewrite Hd. by destruct (prescriptions_of doctor_id s). }
      cbn [final drugs doctors prescriptions prescription_details
           next_detail_id].
      split; [done|]. split; [apply lookup_delete_eq|].
      split; [|done]. intros other Hne. by apply lookup_delete_ne.
Qed.

(** C7.  When the body has no [drug_name], no [quantity], or a quantity
    that is zero or negative, [add_prescription_detail] answers 400 with one
    of its two validation messages without calling its unit of work, so the
    store is as it was, whatever the store holds. *)
Theorem add_prescription_detail_invalid prescription_id data s :
  DetailData.drug_name data = None
  ∨ DetailData.quantity data = None
  ∨ (∃ q, DetailData.quantity data = Some q ∧ q <= 0) →
  ∃ t, (t = DrugNameEmpty ∨ t = QuantityNotPositive)
       ∧ add_prescription_detail prescription_id data s
         = mkRun (Return (Some (error t 400))) s [].
Proof.
  intros Hbad. unfold add_prescription_detail.
  destruct (truthy_str (DetailData.drug_name data)) eqn:Hname; simpl;
    [|by eauto].
  destruct Hbad as [Hn|[Hq|(q & Hq & Hle)]].
  - by rewrite Hn in Hname.
  - rewrite Hq. simpl. eauto.
  - rewrite Hq. simpl.
    assert ((q <=? 0) = true) as -> by (by apply Z.leb_le).
    rewrite orb_true_r. eauto.
Qed.

(** C1, amended.  When the prescription and the drug exist, the drug name
    is not the empty string and the quantity is positive,
    [add_prescription_detail] answers 200 exactly when the quantity is at
    most the drug's stock.  It then appends one row to
    [prescription_details], with the next id, the prescription id, the drug
    name, the quantity and the drug's price at that moment, lowers that
    drug's stock by the quantity and changes nothing else.  When the stock
    is smaller than the quantity it answers 400 "stock insufficient" and
    leaves the store as it was. *)
Theorem add_prescription_detail_stock prescription_id drug_name quantity
    s p drug :
  prescriptions s !! prescription_id = Some p →
  drugs s !! drug_name = Some drug →
  drug_name ≠ "" →
  0 < quantity →
  let r := add_prescription_detail prescription_id
             (DetailData.mk (Some drug_name) (Some quantity)) s in
  (status r = Some 200%nat ↔ quantity <= Drug.stock drug)
  ∧ (quantity <= Drug.stock drug →
       let detail :=
         PrescriptionDetail.mk (next_detail_id s) prescription_id drug_name
                               quantity (Drug.price drug) in
       r = mkRun
             (Return (Some (JDict [("message", JText DetailAdded);
                                   ("detail",
                                    PrescriptionDetail.to_dict detail)],
                            200%nat)))
             (mkStore (<[drug_name := Drug.mk (Drug.price drug)
                                        (Drug.stock drug - quantity)]>
                         (drugs s))
                      (doctors s) (prescriptions s)
                      (prescription_details s ++ [detail])
                      (next_detail_id s + 1))
             [Called 0])
  ∧ (Drug.stock drug < quantity →
       r = mkRun (Return (Some (error (StockInsufficient (Drug.stock drug))
                                      400)))
                 s [Called 0]).
Proof.
  intros Hp Hd Hname Hq r. subst r. unfold add_prescription_detail.
  cbn [DetailData.drug_name DetailData.quantity truthy_str truthy_int].
  apply String.eqb_neq in Hname. rewrite Hname.
  assert ((quantity =? 0) = false) as -> by (apply Z.eqb_neq; lia).
  assert ((quantity <=? 0) = false) as -> by (by apply Z.leb_gt).
  cbn [negb orb].
  destruct (Drug.stock drug <? quantity) eqn:Hs.
  - assert (Hlt : Drug.stock drug < quantity) by (by apply Z.ltb_lt).
    erewrite execute_with_retry_return; last first.
    { unfold insert_detail. cbn [DetailData.drug_name DetailData.quantity].
      by rewrite Hp, Hd, Hs. }
    unfold status. simpl. split; [|split]; [|lia|done].
    split; [intros [=]|lia].
  - assert (Hge : quantity <= Drug.stock drug) by (by apply Z.ltb_ge).
    erewrite execute_with_retry_return; last first.
    { unfold insert_detail. cbn [DetailData.drug_name DetailData.quantity].
      by rewrite Hp, Hd, Hs. }
    unfold status. simpl. split; [|split]; [done|done|lia].
Qed.
(** *** The store a request leaves *)

(** A unit of work that raises no lost connection runs once. *)
Lemma execute_with_retry_final {A : Type}
    (c : Store F → outcome A * Store F) s :
  (∀ e s1, c s = (Raise e, s1) → transient e = false) →
  final (execute_with_retry c default_max_retries default_delay s) = (c s).2.
Proof.
  intros Hc. destruct (c s) as [[a|e] s1] eqn:Hcs.
  - by rewrite (execute_with_retry_return _ _ _ _ Hcs).
  - by rewrite (execute_with_retry_raise _ _ _ _ Hcs (Hc _ _ eq_refl)).
Qed.

Local Ltac no_transient :=
  let e := fresh "e" in let s1 := fresh "s1" in
  intros e s1; repeat case_match; intros [= <- <-]; done.

Lemma final_add_drug data s : final (add_drug data s) = (insert_drug data s).2.
Proof.
  unfold add_drug. cbv zeta.
  rewrite <- execute_with_retry_final by (unfold insert_drug; no_transient).
  by repeat case_match.
Qed.

Lemma final_add_doctor data s :
  final (add_doctor data s) = (insert_doctor data s).2.
Proof.
  unfold add_doctor. cbv zeta.
  rewrite <- execute_with_retry_final by (unfold insert_doctor; no_transient).
  by repeat case_match.
Qed.

Lemma final_add_prescription data s :
  final (add_prescription data s) = s
  ∨ final (add_prescription data s) = (insert_prescription data s).2.
Proof.
  unfold add_prescription. cbv zeta.
  rewrite <- execute_with_retry_final
    by (unfold insert_prescription; no_transient).
  repeat case_match; auto.
Qed.

Lemma final_add_prescription_detail prescription_id data s :
  final (add_prescription_detail prescription_id data s) = s
  ∨ final (add_prescription_detail prescription_id data s)
    = (insert_detail prescription_id data s).2.
Proof.
  unfold add_prescription_detail. cbv zeta.
  rewrite <- execute_with_retry_final by (unfold insert_detail; no_transient).
  repeat case_match; auto.
Qed.

(** The store after any request: the one before, or the one its unit of
    work commits. *)
Lemma final_handle req s :
  final (handle req s) = s
  ∨ match req with
    | POST_drugs data => final (handle req s) = (insert_drug data s).2
    | PUT_drug drug_name data =>
        final (handle req s) = (update_drug_closure drug_name data s).2
    | DELETE_drug drug_name =>
        final (handle req s) = (delete_drug_closure drug_name s).2
    | POST_doctors data => final (handle req s) = (insert_doctor data s).2
    | PUT_doctor doctor_id data =>
        final (handle req s) = (update_doctor_closure doctor_id data s).2
    | DELETE_doctor doctor_id =>
        final (handle req s) = (delete_doctor_closure doctor_id s).2
    | POST_prescriptions data =>
        final (handle req s) = (insert_prescription data s).2
    | DELETE_prescription prescription_id =>
        final (handle req s)
        = (delete_prescription_closure prescription_id s).2
    | POST_details prescription_id data =>
        final (handle req s) = (insert_detail prescription_id data s).2
    | POST_calculate prescription_id =>
        final (handle req s) = (calculate prescription_id s).2
    | _ => False
    end.
Proof.
  destruct req; simpl handle.
  - left. by apply execute_with_retry_final.
  - right. apply final_add_drug.
  - left. unfold get_drug. rewrite execute_with_retry_final.
    + unfold query_drug. by case_match.
    + unfold query_drug. no_transient.
  - right. apply execute_with_retry_final.
    unfold update_drug_closure. no_transient.
  - right. apply execute_with_retry_final.
    unfold delete_drug_closure. no_transient.
  - left. by apply execute_with_retry_final.
  - right. apply final_add_doctor.
  - left. unfold get_doctor. rewrite execute_with_retry_final.
    + unfold query_doctor. by case_match.
    + unfold query_doctor. no_transient.
  - right. apply execute_with_retry_final.
    unfold update_doctor_closure. no_transient.
  - right. apply execute_with_retry_final.
    unfold delete_doctor_closure. no_transient.
  - left. by apply execute_with_retry_final.
  - apply final_add_prescription.
  - left. unfold get_prescription. rewrite execute_with_retry_final.
    + unfold query_prescription. by case_match.
    + unfold query_prescription. no_transient.
  - right. apply execute_with_retry_final.
    unfold delete_prescription_closure. no_transient.
  - left. by apply execute_with_retry_final.
  - apply final_add_prescription_detail.
  - right. apply execute_with_retry_final. unfold calculate. no_transient.
Qed.
Lemma update_drug_row_stock data (drug : Drug.t F) :
  Drug.stock (update_drug_row data drug)
  = default (Drug.stock drug) (DrugData.stock data).
Proof.
  unfold update_drug_row.
  by destruct (DrugData.price data), (DrugData.stock data).
Qed.

(** C5, amended.  Every request keeps all stocks non-negative when it
    starts from a store with non-negative stocks, provided the stock an
    add-drug or update-drug request supplies, if it supplies one, is not
    negative. *)
Theorem handle_preserves_stock_nonneg req s :
  stock_nonneg s →
  (∀ z, supplied_stock req = Some z → 0 <= z) →
  stock_nonneg (final (handle req s)).
Proof.
  intros Hinv Hin. destruct (final_handle req s) as [->|Hf]; [done|].
  destruct req; try done; rewrite Hf; clear Hf; simpl in Hin.
  - unfold insert_drug. repeat case_match; try done. simpl.
    apply map_Forall_insert_2; [|done]. simpl. by apply Hin.
  - unfold update_drug_closure. case_match eqn:Hd; [|done]. simpl.
    apply map_Forall_insert_2; [|done].
    rewrite update_drug_row_stock.
    destruct (DrugData.stock data) as [z|]; simpl; [by apply Hin|].
    by apply (Hinv _ _ Hd).
  - unfold delete_drug_closure. repeat case_match; try done. simpl.
    by apply map_Forall_delete.
  - unfold insert_doctor. by repeat case_match.
  - unfold update_doctor_closure. by repeat case_match.
  - unfold delete_doctor_closure. by repeat case_match.
  - unfold insert_prescription. by repeat case_match.
  - unfold delete_prescription_closure. by repeat case_match.
  - unfold insert_detail.
    destruct (prescriptions s !! prescription_id); [|done].
    destruct (DetailData.drug_name data) as [name|]; [|done].
    destruct (drugs s !! name) as [drug|] eqn:Hd; [|done].
    destruct (DetailData.quantity data) as [q|]; [|done].
    destruct (Drug.stock drug <? q) eqn:Hs; [done|]. simpl.
    apply map_Forall_insert_2; [|done]. simpl.
    apply Z.ltb_ge in Hs. lia.
  - unfold calculate. by repeat case_match.
Qed.

(** No request rewrites a row of [prescription_details]: a row present
    afterwards was present before, or is the row this very request
    inserted, whose price is the drug's price in the store it ran on. *)
Lemma handle_details_kept req s d :
  d ∈ prescription_details (final (handle req s)) →
  d ∈ prescription_details s
  ∨ ∃ prescription_id data drug_name quantity drug,
      req = POST_details prescription_id data
      ∧ DetailData.drug_name data = Some drug_name
      ∧ DetailData.quantity data = Some quantity
      ∧ drugs s !! drug_name = Some drug
      ∧ d = PrescriptionDetail.mk (next_detail_id s) prescription_id
              drug_name quantity (Drug.price drug).
Proof.
  destruct (final_handle req s) as [->|Hf]; [by left|].
  destruct req; try done; rewrite Hf; clear Hf.
  - unfold insert_drug. repeat case_match; by left.
  - unfold update_drug_closure. repeat case_match; by left.
  - unfold delete_drug_closure. repeat case_match; by left.
  - unfold insert_doctor. repeat case_match; by left.
  - unfold update_doctor_closure. repeat case_match; by left.
  - unfold delete_doctor_closure. repeat case_match; by left.
  - unfold insert_prescription. repeat case_match; by left.
  - unfold delete_prescription_closure. case_match; [|by left]. simpl.
    intros (_ & Hin)%list_elem_of_filter. by left.
  - unfold insert_detail.
    destruct (prescriptions s !! prescription_id); [|by left].
    destruct (DetailData.drug_name data) as [name|] eqn:Hn; [|by left].
    destruct (drugs s !! name) as [drug|] eqn:Hd; [|by left].
    destruct (DetailData.quantity data) as [q|] eqn:Hq; [|by left].
    destruct (Drug.stock drug <? q); [by left|]. simpl.
    intros [Hin|Hin%list_elem_of_singleton]%elem_of_app; [by left|].
    right. by exists prescription_id, data, name, q, drug.
  - unfold calculate. repeat case_match; by left.
Qed.

(** [update_drug] writes the [drugs] table only. *)
Lemma update_drug_frame drug_name data s :
  prescription_details (final (update_drug drug_name data s))
  = prescription_details s
  ∧ prescriptions (final (update_drug drug_name data s)) = prescriptions s.
Proof.
  unfold update_drug. rewrite execute_with_retry_final.
  - unfold update_drug_closure. by case_match.
  - unfold update_drug_closure. no_transient.
Qed.

(** The answer of [calculate_prescription] depends on the prescriptions
    and their details only. *)
Lemma calculate_prescription_result_ext prescription_id s s' :
  prescriptions s' = prescriptions s →
  prescription_details s' = prescription_details s →
  result (calculate_prescription prescription_id s')
  = result (calculate_prescription prescription_id s).
Proof.
  intros Hp Hd.
  destruct (prescriptions s !! prescription_id) as [p|] eqn:Hl.
  - rewrite (calculate_prescription_found _ s p Hl).
    rewrite (calculate_prescription_found _ s' p) by by rewrite Hp.
    simpl. unfold spec_total. by rewrite Hd.
  - rewrite (calculate_prescription_missing _ s Hl).
    by rewrite (calculate_prescription_missing _ s') by by rewrite Hp.
Qed.

(** C6.  A row of [prescription_details] is written once, with the price
    the drug had in the store the inserting request ran on, and no request
    changes it afterwards: a row present after a request was present before
    it or is the row that request inserted.  In particular [update_drug],
    whatever price it sets, leaves the table as it was, and
    [calculate_prescription] after it answers what it would have answered
    before it. *)
Theorem detail_price_snapshot s :
  (∀ req d,
     d ∈ prescription_details (final (handle req s)) →
     d ∈ prescription_details s
     ∨ ∃ prescription_id data drug_name quantity drug,
         req = POST_details prescription_id data
         ∧ DetailData.drug_name data = Some drug_name
         ∧ DetailData.quantity data = Some quantity
         ∧ drugs s !! drug_name = Some drug
         ∧ d = PrescriptionDetail.mk (next_detail_id s) prescription_id
                 drug_name quantity (Drug.price drug))
  ∧ (∀ drug_name data,
       prescription_details (final (update_drug drug_name data s))
       = prescription_details s)
  ∧ (∀ drug_name data prescription_id,
       result (calculate_prescription prescription_id
                 (final (update_drug drug_name data s)))
       = result (calculate_prescription prescription_id s)).
Proof.
  split; [|split].
  - intros req d. apply handle_details_kept.
  - intros drug_name data. apply update_drug_frame.
  - intros drug_name data prescription_id.
    apply calculate_prescription_result_ext; apply update_drug_frame.
Qed.
End HandlerFacts.

(** ** The properties on the example database *)


(** C1 as worded fails on a drug whose name is the empty string: [add_drug]
    accepts such a name, the prescription and the drug exist, the quantity 1
    is positive and within the stock 5, and [add_prescription_detail] answers
    400 "drug name empty" at line 357. *)
Lemma add_prescription_detail_empty_drug_name :
  status (add_drug
            (DrugData.mk (Some "") (Some (1 # 1)%Q) (Some 5))
            (mkStore ∅ ∅ ∅ [] 1))
  = Some 200%nat
  ∧ prescriptions example_store !! "P1"
    = Some (Prescription.mk "D1" (0 # 1)%Q)
  ∧ drugs example_store !! "" = Some (Drug.mk (1 # 1)%Q 5)
  ∧ 0 < 1 <= 5
  ∧ add_prescription_detail "P1"
      (DetailData.mk (Some "") (Some 1)) example_store
    = mkRun (Return (Some (error DrugNameEmpty 400))) example_store []
  ∧ status (add_prescription_detail "P1"
              (DetailData.mk (Some "") (Some 1)) example_store)
    ≠ Some 200%nat.
Proof.
  split; [by vm_compute|]. split; [by vm_compute|]. split; [by vm_compute|].
  split; [lia|]. split; [reflexivity|]. by vm_compute.
Qed.

Lemma add_prescription_detail_stock_witness :
  (prescriptions example_store !! "P1" = Some (Prescription.mk "D1" (0 # 1)%Q)
   ∧ drugs example_store !! "Aspirin" = Some (Drug.mk (2 # 1)%Q 10)
   ∧ "Aspirin" ≠ "" ∧ 0 < 4)
  ∧ status (add_prescription_detail "P1"
              (DetailData.mk (Some "Aspirin") (Some 4)) example_store)
    = Some 200%nat
  ∧ drugs (final (add_prescription_detail "P1"
                    (DetailData.mk (Some "Aspirin") (Some 4)) example_store))
      !! "Aspirin"
    = Some (Drug.mk (2 # 1)%Q 6)
  ∧ add_prescription_detail "P1"
      (DetailData.mk (Some "Aspirin") (Some 11)) example_store
    = mkRun (Return (Some (error (StockInsufficient 10) 400))) example_store
            [Called 0].
Proof.
  assert (Hp : prescriptions example_store !! "P1"
               = Some (Prescription.mk "D1" (0 # 1)%Q)) by (by vm_compute).
  assert (Hd : drugs example_store !! "Aspirin"
               = Some (Drug.mk (2 # 1)%Q 10)) by (by vm_compute).
  assert (Hn : "Aspirin" ≠ "") by done.
  split; [repeat split; done|].
  destruct (add_prescription_detail_stock "P1" "Aspirin" 4
              example_store _ _ Hp Hd Hn ltac:(lia)) as (Hiff & Hok & _).
  destruct (add_prescription_detail_stock "P1" "Aspirin" 11
              example_store _ _ Hp Hd Hn ltac:(lia)) as (_ & _ & Hlow).
  split; [apply Hiff; simpl; lia|].
  split; [|apply Hlow; simpl; lia].
  rewrite Hok by (simpl; lia). simpl. by rewrite lookup_insert_eq.
Defined.




(** Codeine is named by one detail row, by two once P1 takes one more unit
    of it, and Aspirin by none; doctor D1 has one prescription and D2 none. *)
Lemma delete_drug_doctor_guard_witness :
  (drugs example_store !! "Codeine" = Some (Drug.mk (5 # 1)%Q 8)
   ∧ drugs example_store !! "Aspirin" = Some (Drug.mk (2 # 1)%Q 10)
   ∧ doctors example_store !! "D1" = Some (Doctor.mk "Alice")
   ∧ doctors example_store !! "D2" = Some (Doctor.mk "Bob"))
  ∧ delete_drug "Codeine" example_store
    = mkRun (Return (Some (JDict [("error", JText DrugHasDetails);
                                  ("detail_count", JInt 1)], 400%nat)))
            example_store [Called 0]
  ∧ result (delete_drug "Codeine"
              (final (add_prescription_detail "P1"
                        (DetailData.mk (Some "Codeine") (Some 1))
                        example_store)))
    = Return (Some (JDict [("error", JText DrugHasDetails);
                           ("detail_count", JInt 2)], 400%nat))
  ∧ status (delete_drug "Aspirin" example_store) = Some 200%nat
  ∧ drugs (final (delete_drug "Aspirin" example_store)) !! "Aspirin" = None
  ∧ drugs (final (delete_drug "Aspirin" example_store)) !! "Codeine"
    = Some (Drug.mk (5 # 1)%Q 8)
  ∧ delete_doctor "D1" example_store
    = mkRun (Return (Some (JDict [("error", JText DoctorHasPrescriptions);
                                  ("prescription_count", JInt 1)], 400%nat)))
            example_store [Called 0]
  ∧ status (delete_doctor "D2" example_store) = Some 200%nat
  ∧ doctors (final (delete_doctor "D2" example_store)) !! "D2" = None
  ∧ doctors (final (delete_doctor "D2" example_store)) !! "D1"
    = Some (Doctor.mk "Alice").
Proof.
  assert (Hc : drugs example_store !! "Codeine" = Some (Drug.mk (5 # 1)%Q 8))
    by (by vm_compute).
  assert (Hc2 : drugs (final (add_prescription_detail "P1"
                                (DetailData.mk (Some "Codeine") (Some 1))
                                example_store)) !! "Codeine"
                = Some (Drug.mk (5 # 1)%Q 7)) by (by vm_compute).
  assert (Ha : drugs example_store !! "Aspirin" = Some (Drug.mk (2 # 1)%Q 10))
    by (by vm_compute).
  assert (H1 : doctors example_store !! "D1" = Some (Doctor.mk "Alice"))
    by (by vm_compute).
  assert (H2 : doctors example_store !! "D2" = Some (Doctor.mk "Bob"))
    by (by vm_compute).
  destruct (delete_drug_doctor_guard example_store) as [Hdrug Hdoctor].
  destruct (delete_drug_doctor_guard
              (final (add_prescription_detail "P1"
                        (DetailData.mk (Some "Codeine") (Some 1))
                        example_store))) as [Hdrug2 _].
  destruct (proj2 (Hdrug _ _ Ha) ltac:(by vm_compute))
    as (Hrun & Hgone & Hkept & _).
  destruct (proj2 (Hdoctor _ _ H2) ltac:(by vm_compute))
    as (Hrun' & Hgone' & Hkept' & _).
  split; [done|].
  split; [apply (proj1 (Hdrug _ _ Hc)); by vm_compute|].
  split.
  { rewrite (proj1 (Hdrug2 _ _ Hc2)) by (vm_compute; lia). reflexivity. }
  split; [by rewrite Hrun|]. split; [exact Hgone|].
  split; [by rewrite Hkept|].
  split; [apply (proj1 (Hdoctor _ _ H1)); by vm_compute|].
  split; [by rewrite Hrun'|]. split; [exact Hgone'|].
  by rewrite Hkept'.
Defined.

Lemma add_prescription_detail_invalid_witness :
  (DetailData.drug_name (DetailData.mk (Some "Aspirin") (Some 0)) = None
   ∨ DetailData.quantity (DetailData.mk (Some "Aspirin") (Some 0)) = None
   ∨ ∃ q, DetailData.quantity (DetailData.mk (Some "Aspirin") (Some 0))
          = Some q ∧ q <= 0)
  ∧ ∃ t, (t = DrugNameEmpty ∨ t = QuantityNotPositive)
         ∧ add_prescription_detail "P1" (DetailData.mk (Some "Aspirin") (Some 0))
             example_store
           = mkRun (Return (Some (error t 400))) example_store [].
Proof.
  assert (Hbad :
    DetailData.drug_name (DetailData.mk (Some "Aspirin") (Some 0)) = None
    ∨ DetailData.quantity (DetailData.mk (Some "Aspirin") (Some 0)) = None
    ∨ ∃ q, DetailData.quantity (DetailData.mk (Some "Aspirin") (Some 0))
           = Some q ∧ q <= 0).
  { right; right. exists 0. split; [reflexivity|lia]. }
  split; [exact Hbad|].
  exact (add_prescription_detail_invalid "P1" _ example_store Hbad).
Defined.

Lemma example_store_stock_nonneg : stock_nonneg example_store.
Proof.
  unfold stock_nonneg, example_store; simpl.
  repeat (apply map_Forall_insert_2; [simpl; lia|]).
  apply map_Forall_empty.
Qed.

(** C5 as worded fails: nothing in [update_drug] or [add_drug] looks at the
    sign of the stock they store.  From a store with non-negative stocks,
    updating Aspirin with stock -1 answers 200 and stores -1, and adding a
    drug with stock -5 answers 200 and stores -5. *)
Lemma update_drug_negative_stock :
  stock_nonneg example_store
  ∧ status (update_drug "Aspirin" (DrugData.mk None None (Some (-1)))
              example_store) = Some 200%nat
  ∧ drugs (final (update_drug "Aspirin" (DrugData.mk None None (Some (-1)))
                    example_store)) !! "Aspirin"
    = Some (Drug.mk (2 # 1)%Q (-1))
  ∧ ~ stock_nonneg
        (final (update_drug "Aspirin" (DrugData.mk None None (Some (-1)))
                  example_store))
  ∧ status (add_drug (DrugData.mk (Some "Morphine") (Some (9 # 1)%Q)
                        (Some (-5))) example_store) = Some 200%nat
  ∧ drugs (final (add_drug (DrugData.mk (Some "Morphine") (Some (9 # 1)%Q)
                              (Some (-5))) example_store)) !! "Morphine"
    = Some (Drug.mk (9 # 1)%Q (-5))
  ∧ ~ stock_nonneg
        (final (add_drug (DrugData.mk (Some "Morphine") (Some (9 # 1)%Q)
                            (Some (-5))) example_store)).
Proof.
  assert (Hu : drugs (final (update_drug "Aspirin"
                               (DrugData.mk None None (Some (-1)))
                               example_store)) !! "Aspirin"
               = Some (Drug.mk (2 # 1)%Q (-1))) by (by vm_compute).
  assert (Ha : drugs (final (add_drug (DrugData.mk (Some "Morphine")
                                         (Some (9 # 1)%Q) (Some (-5)))
                               example_store)) !! "Morphine"
               = Some (Drug.mk (9 # 1)%Q (-5))) by (by vm_compute).
  split; [apply example_store_stock_nonneg|].
  split; [by vm_compute|]. split; [exact Hu|].
  split; [intros Hinv; specialize (Hinv _ _ Hu); simpl in Hinv; lia|].
  split; [by vm_compute|]. split; [exact Ha|].
  intros Hinv. specialize (Hinv _ _ Ha). simpl in Hinv. lia.
Qed.

(** A detail is added, and a drug is updated with a stock of 0. *)
Lemma handle_preserves_stock_nonneg_witness :
  stock_nonneg example_store
  ∧ (∀ z, supplied_stock
            (PUT_drug "Aspirin" (DrugData.mk (Some "x") (Some (7 # 1)%Q)
                                   (Some 0))) = Some z → 0 <= z)
  ∧ stock_nonneg
      (final (handle (PUT_drug "Aspirin"
                        (DrugData.mk (Some "x") (Some (7 # 1)%Q) (Some 0)))
                     example_store))
  ∧ stock_nonneg
      (final (handle (POST_details "P1" (DetailData.mk (Some "Aspirin")
                                           (Some 10)))
                     example_store)).
Proof.
  assert (Hin : ∀ z, supplied_stock
                       (PUT_drug "Aspirin"
                          (DrugData.mk (Some "x") (Some (7 # 1)%Q) (Some 0)))
                     = Some z → 0 <= z).
  { intros z [= <-]. lia. }
  split; [apply example_store_stock_nonneg|]. split; [exact Hin|]. split.
  - exact (handle_preserves_stock_nonneg _ _ example_store_stock_nonneg Hin).
  - apply (handle_preserves_stock_nonneg
             (POST_details "P1" (DetailData.mk (Some "Aspirin") (Some 10)))
             _ example_store_stock_nonneg).
    intros z [=].
Defined.

(** Codeine's price is raised from 5 to 9 after P1 took two units at 5: the
    rows and the total 29/2 stay. *)
Lemma detail_price_snapshot_witness :
  drugs (final (update_drug "Codeine" (DrugData.mk None (Some (9 # 1)%Q) None)
                  example_store)) !! "Codeine"
  = Some (Drug.mk (9 # 1)%Q 8)
  ∧ prescription_details
      (final (update_drug "Codeine" (DrugData.mk None (Some (9 # 1)%Q) None)
                example_store))
    = prescription_details example_store
  ∧ result (calculate_prescription "P1"
              (final (update_drug "Codeine"
                        (DrugData.mk None (Some (9 # 1)%Q) None)
                        example_store)))
    = Return (Some (JDict [("message", JText TotalCalculated);
                           ("total_fee", JFloat (29 # 2)%Q)], 200%nat))
  ∧ (PrescriptionDetail.mk 1 "P1" "Codeine" 2 (5 # 1)%Q
     ∈ prescription_details
         (final (handle (POST_details "P1" (DetailData.mk (Some "Codeine")
                                              (Some 1)))
                        (final (update_drug "Codeine"
                                  (DrugData.mk None (Some (9 # 1)%Q) None)
                                  example_store)))))
  ∧ (PrescriptionDetail.mk 3 "P1" "Codeine" 1 (9 # 1)%Q
     ∈ prescription_details
         (final (handle (POST_details "P1" (DetailData.mk (Some "Codeine")
                                              (Some 1)))
                        (final (update_drug "Codeine"
                                  (DrugData.mk None (Some (9 # 1)%Q) None)
                                  example_store))))).
Proof.
  destruct (detail_price_snapshot example_store) as (_ & Hkeep & Hsame).
  split; [by vm_compute|]. split; [apply Hkeep|].
  split; [rewrite Hsame; by vm_compute|].
  split; vm_compute; repeat constructor.
Defined.


(** * Further properties of the code *)

(** ** The substring test and the retry loop *)



Section RetryMore.
Context {W A : Type}.
Variable func : W -> outcome A * W.

(** The loop falls off its end, answering [None], only with no attempt left. *)
Lemma retry_loop_not_none max_retries delay first count w :
  (first + S count)%nat = max_retries →
  result (retry_loop func max_retries delay (seq first (S count)) w)
  ≠ Return None.
Proof.
  revert first w. induction count as [|count IH]; intros first w Hm.
  - destruct (retry_loop_cases func max_retries delay first [] w)
      as [(a & w1 & _ & Hr)|[(e & w1 & _ & _ & Hr)|(e & w1 & _ & Hc & _)]].
    + simpl seq. by rewrite Hr.
    + simpl seq. by rewrite Hr.
    + apply andb_true_iff in Hc as [_ Hc]. apply Z.ltb_lt in Hc. lia.
  - change (seq first (S (S count))) with (first :: seq (S first) (S count)).
    destruct (retry_loop_cases func max_retries delay first
                (seq (S first) (S count)) w)
      as [(a & w1 & _ & ->)|[(e & w1 & _ & _ & ->)|(e & w1 & _ & _ & ->)]];
      [done..|].
    cbn [result]. apply IH. lia.
Qed.

(** X2.  For every bound and delay, [execute_with_retry] calls the unit of
    work at most [max_retries] times and sleeps exactly [delay] between two
    calls.  With [max_retries = 0] it never calls it and returns [None] with
    the state untouched; with a positive bound it calls it at least once and
    never returns [None]. *)
Theorem execute_with_retry_any_bound (max_retries delay : nat) (w : W) :
  let r := execute_with_retry func max_retries delay w in
  (calls (trace r) ≤ max_retries)%nat
  ∧ delays (trace r) = replicate (calls (trace r) - 1) delay
  ∧ (max_retries = 0%nat → r = mkRun (Return None) w [])
  ∧ ((0 < max_retries)%nat →
       (1 ≤ calls (trace r))%nat ∧ result r ≠ Return None).
Proof.
  cbv zeta. unfold execute_with_retry. split; [|split; [|split]].
  - pose proof (retry_loop_calls_le func max_retries delay
                  (seq 0 max_retries) w) as Hle.
    by rewrite length_seq in Hle.
  - by apply retry_loop_delays.
  - by intros ->.
  - intros Hpos. destruct max_retries as [|n]; [lia|]. split.
    + apply retry_loop_calls_pos.
    + by apply retry_loop_not_none.
Qed.

(** X3.  With the bound 3 and the delay 2 the wrapper recovers from one or
    two lost connections: when a later call returns, the run returns that
    value in the state that call left, after one sleep per failure. *)
Theorem execute_with_retry_recovers (w : W) :
  let r := execute_with_retry func default_max_retries default_delay w in
  (∀ e1 w1 a w2,
     func w = (Raise e1, w1) → transient e1 = true →
     func w1 = (Return a, w2) →
     r = mkRun (Return (Some a)) w2
           [Called 0; Printed 1 3; Slept 2; Called 1])
  ∧ (∀ e1 w1 e2 w2 a w3,
       func w = (Raise e1, w1) → transient e1 = true →
       func w1 = (Raise e2, w2) → transient e2 = true →
       func w2 = (Return a, w3) →
       r = mkRun (Return (Some a)) w3
             [Called 0; Printed 1 3; Slept 2;
              Called 1; Printed 2 3; Slept 2; Called 2]).
Proof.
  cbv zeta. unfold execute_with_retry. simpl seq. split.
  - intros e1 w1 a w2 Hf1 Ht1 Hf2.
    rewrite (retry_loop_again _ _ _ _ _ _ _ _ Hf1) by (by rewrite Ht1).
    by rewrite (retry_loop_return _ _ _ _ _ _ _ _ Hf2).
  - intros e1 w1 e2 w2 a w3 Hf1 Ht1 Hf2 Ht2 Hf3.
    rewrite (retry_loop_again _ _ _ _ _ _ _ _ Hf1) by (by rewrite Ht1).
    rewrite (retry_loop_again _ _ _ _ _ _ _ _ Hf2) by (by rewrite Ht2).
    by rewrite (retry_loop_return _ _ _ _ _ _ _ _ Hf3).
Qed.
End RetryMore.

(** ** Every route *)

Section HandlerMore.
Context {F : Type} `{FloatArith F}.
Implicit Types (s : Store F).

(** A unit of work that raises no lost connection is called exactly once. *)
Lemma execute_with_retry_once {A : Type}
    (c : Store F → outcome A * Store F) s :
  (∀ e s1, c s = (Raise e, s1) → transient e = false) →
  execute_with_retry c default_max_retries default_delay s
  = mkRun (match (c s).1 with
           | Return a => Return (Some a)
           | Raise e => Raise e
           end) (c s).2 [Called 0].
Proof.
  intros Hc. destruct (c s) as [[a|e] s1] eqn:Hcs.
  - by rewrite (execute_with_retry_return _ _ _ _ Hcs).
  - by rewrite (execute_with_retry_raise _ _ _ _ Hcs (Hc _ _ eq_refl)).
Qed.

Local Ltac run_once :=
  rewrite execute_with_retry_once
    by (let e := fresh "e" in let s1 := fresh "s1" in
        intros e s1; repeat case_match; intros [= <- <-]; done).



(** *** Drugs: add, read, update, delete *)

Lemma get_drug_run drug_name s :
  get_drug drug_name s
  = mkRun (Return (Some (match drugs s !! drug_name with
                         | Some drug => (Drug.to_dict drug_name drug, 200%nat)
                         | None => error DrugNotFound 404
                         end))) s [Called 0].
Proof.
  unfold get_drug, query_drug. run_once. by destruct (drugs s !! _).
Qed.

Lemma add_drug_fresh drug_name price stock s :
  drugs s !! drug_name = None →
  add_drug (DrugData.mk (Some drug_name) (Some price) (Some stock)) s
  = mkRun (Return (Some (JDict [("message", JText DrugAdded);
                                ("drug", Drug.to_dict drug_name
                                           (Drug.mk price stock))], 200%nat)))
          (set_drugs (<[drug_name := Drug.mk price stock]> (drugs s)) s)
          [Called 0].
Proof.
  intros Hd. unfold add_drug, insert_drug. run_once. cbn. by rewrite Hd.
Qed.

Lemma add_drug_taken drug_name price stock s :
  is_Some (drugs s !! drug_name) →
  add_drug (DrugData.mk (Some drug_name) (Some price) (Some stock)) s
  = mkRun (Return (Some (error DrugExists 400))) s [Called 0].
Proof.
  intros [d Hd]. unfold add_drug, insert_drug. run_once. cbn. by rewrite Hd.
Qed.

(** X5.  Adding a drug under a name that is free answers 200, after which
    [get_drug] returns exactly the name, price and stock given, every other
    drug is as before, and a second [add_drug] under that name, whatever its
    price and stock, answers 400 "drug exists" and changes nothing. *)
Theorem add_drug_get_drug drug_name price stock s :
  drugs s !! drug_name = None →
  let r := add_drug (DrugData.mk (Some drug_name) (Some price) (Some stock))
                    s in
  status r = Some 200%nat
  ∧ result (get_drug drug_name (final r))
    = Return (Some (Drug.to_dict drug_name (Drug.mk price stock), 200%nat))
  ∧ (∀ other, other ≠ drug_name →
       drugs (final r) !! other = drugs s !! other)
  ∧ (∀ price' stock',
       add_drug (DrugData.mk (Some drug_name) (Some price') (Some stock'))
                (final r)
       = mkRun (Return (Some (error DrugExists 400))) (final r) [Called 0]).
Proof.
  intros Hd r. subst r. rewrite (add_drug_fresh _ _ _ _ Hd).
  cbn [final]. split; [done|]. split; [|split].
  - rewrite get_drug_run. cbn. by rewrite lookup_insert_eq.
  - intros other Hne. cbn. by rewrite lookup_insert_ne.
  - intros price' stock'. apply add_drug_taken. cbn.
    rewrite lookup_insert_eq. by eexists.
Qed.

(** X6.  A body of [add_drug] that lacks a field makes the view answer 500
    with the [KeyError] of the first missing key, in the order drug_name,
    price, stock, and nothing is stored, whether the name is taken or not. *)
Theorem add_drug_missing_field (data : DrugData.t F) s :
  DrugData.drug_name data = None ∨ DrugData.price data = None
  ∨ DrugData.stock data = None →
  ∃ key,
    add_drug data s
    = mkRun (Return (Some (error (AddDrugFailed (KeyError key)) 500))) s
            [Called 0]
    ∧ key = match DrugData.drug_name data, DrugData.price data with
            | None, _ => "drug_name"
            | Some _, None => "price"
            | Some _, Some _ => "stock"
            end.
Proof.
  intros Hmiss. unfold add_drug, insert_drug. run_once.
  destruct data as [[name|] [price|] [stock|]]; cbn in *;
    try (eexists; split; reflexivity).
  by destruct Hmiss as [?|[?|?]].
Qed.

Lemma update_drug_run drug_name data s :
  update_drug drug_name data s
  = match drugs s !! drug_name with
    | None => mkRun (Return (Some (error DrugNotFound 404))) s [Called 0]
    | Some drug =>
        mkRun (Return (Some (JDict [("message", JText DrugUpdated);
                                    ("drug", Drug.to_dict drug_name
                                               (update_drug_row data drug))],
                             200%nat)))
              (set_drugs (<[drug_name := update_drug_row data drug]> (drugs s))
                         s)
              [Called 0]
    end.
Proof.
  unfold update_drug, update_drug_closure. run_once.
  by destruct (drugs s !! _).
Qed.

Lemma update_drug_row_fields data (drug : Drug.t F) :
  update_drug_row data drug
  = Drug.mk (default (Drug.price drug) (DrugData.price data))
            (default (Drug.stock drug) (DrugData.stock data)).
Proof.
  unfold update_drug_row.
  by destruct drug, (DrugData.price data), (DrugData.stock data).
Qed.

(** X7.  [update_drug] never creates a drug: on a name that is absent it
    answers 404 and changes nothing.  On an existing drug it overwrites the
    price and the stock the body supplies and keeps the ones it does not,
    ignores a [drug_name] in the body, and leaves every other drug and table
    as it was; with neither field in the body it answers 200 and the store is
    unchanged. *)
Theorem update_drug_partial drug_name data s :
  let r := update_drug drug_name data s in
  (drugs s !! drug_name = None →
     r = mkRun (Return (Some (error DrugNotFound 404))) s [Called 0])
  ∧ (∀ drug, drugs s !! drug_name = Some drug →
       let drug' := Drug.mk (default (Drug.price drug) (DrugData.price data))
                            (default (Drug.stock drug) (DrugData.stock data)) in
       r = mkRun (Return (Some (JDict [("message", JText DrugUpdated);
                                       ("drug", Drug.to_dict drug_name drug')],
                                200%nat)))
                 (mkStore (<[drug_name := drug']> (drugs s)) (doctors s)
                          (prescriptions s) (prescription_details s)
                          (next_detail_id s))
                 [Called 0]
       ∧ drugs (final r) !! drug_name = Some drug'
       ∧ (∀ other, other ≠ drug_name →
            drugs (final r) !! other = drugs s !! other)
       ∧ (DrugData.price data = None → DrugData.stock data = None →
            final r = s)).
Proof.
  cbv zeta. rewrite update_drug_run. split.
  - by intros ->.
  - intros drug Hd. rewrite Hd, update_drug_row_fields. split; [done|].
    split; [cbn; by rewrite lookup_insert_eq|]. split.
    + intros other Hne. cbn. by rewrite lookup_insert_ne.
    + intros -> ->. cbn. destruct s, drug. unfold set_drugs. cbn in *.
      by rewrite insert_id.
Qed.

(** X8.  Two updates of the same drug in a row amount to one update with the
    second body laid over the first; in particular repeating an update
    changes nothing more. *)
Theorem update_drug_twice drug_name data1 data2 s :
  final (update_drug drug_name data2 (final (update_drug drug_name data1 s)))
  = final (update_drug drug_name
             (DrugData.mk None
                (match DrugData.price data2 with
                 | Some price => Some price
                 | None => DrugData.price data1
                 end)
                (match DrugData.stock data2 with
                 | Some stock => Some stock
                 | None => DrugData.stock data1
                 end)) s)
  ∧ final (update_drug drug_name data1 (final (update_drug drug_name data1 s)))
    = final (update_drug drug_name data1 s).
Proof.
  rewrite !(update_drug_run drug_name _ s).
  destruct (drugs s !! drug_name) as [drug|] eqn:Hd; cbn [final].
  - rewrite !update_drug_run. cbn. rewrite !lookup_insert_eq. cbn.
    unfold set_drugs. cbn. rewrite !insert_insert_eq.
    rewrite !update_drug_row_fields. cbn.
    split; do 3 f_equal;
      by destruct (DrugData.price data1), (DrugData.price data2),
        (DrugData.stock data1), (DrugData.stock data2).
  - rewrite !update_drug_run, Hd. done.
Qed.

Lemma delete_drug_run drug_name s :
  delete_drug drug_name s
  = match drugs s !! drug_name with
    | None => mkRun (Return (Some (error DrugNotFound 404))) s [Called 0]
    | Some drug =>
        match details_with_drug drug_name s with
        | [] => mkRun (Return (Some (message DrugDeleted)))
                      (set_drugs (delete drug_name (drugs s)) s) [Called 0]
        | details =>
            mkRun (Return (Some (JDict
                                   [("error", JText DrugHasDetails);
                                    ("detail_count",
                                     JInt (Z.of_nat (length details)))],
                                 400%nat))) s [Called 0]
        end
    end.
Proof.
  unfold delete_drug, delete_drug_closure. run_once.
  destruct (drugs s !! _); [|done]. by destruct (details_with_drug _ _).
Qed.

(** X9.  [delete_drug] on a name that is absent answers 404 and changes
    nothing.  After it deleted a drug, [get_drug] on the name answers 404,
    and adding a drug under the name again answers 200 and leaves the store
    that differs from the original one only in that drug's price and stock. *)
Theorem delete_drug_then_get_add drug_name s :
  (drugs s !! drug_name = None →
     delete_drug drug_name s
     = mkRun (Return (Some (error DrugNotFound 404))) s [Called 0])
  ∧ (status (delete_drug drug_name s) = Some 200%nat →
       result (get_drug drug_name (final (delete_drug drug_name s)))
       = Return (Some (error DrugNotFound 404))
       ∧ ∀ price stock,
           add_drug (DrugData.mk (Some drug_name) (Some price) (Some stock))
                    (final (delete_drug drug_name s))
           = mkRun (Return (Some (JDict [("message", JText DrugAdded);
                                         ("drug", Drug.to_dict drug_name
                                                    (Drug.mk price stock))],
                                  200%nat)))
                   (mkStore (<[drug_name := Drug.mk price stock]> (drugs s))
                            (doctors s) (prescriptions s)
                            (prescription_details s) (next_detail_id s))
                   [Called 0]).
Proof.
  rewrite delete_drug_run. split; [by intros ->|].
  destruct (drugs s !! drug_name) as [drug|]; [|by intros [=]].
  destruct (details_with_drug drug_name s); [|by intros [=]].
  intros _. cbn [final]. split.
  - rewrite get_drug_run. cbn. by rewrite lookup_delete_eq.
  - intros price stock. rewrite add_drug_fresh by apply lookup_delete_eq.
    unfold set_drugs. cbn. by rewrite insert_delete_eq.
Qed.

Lemma delete_prescription_run prescription_id s :
  delete_prescription prescription_id s
  = match prescriptions s !! prescription_id with
    | None => mkRun (Return (Some (error PrescriptionNotFound 404))) s
                    [Called 0]
    | Some _ =>
        mkRun (Return (Some (message PrescriptionDeleted)))
              (mkStore (drugs s) (doctors s)
                       (delete prescription_id (prescriptions s))
                       (filter (λ d, PrescriptionDetail.prescription_id d
                                       ≠ prescription_id)
                               (prescription_details s))
                       (next_detail_id s))
              [Called 0]
    end.
Proof.
  unfold delete_prescription, delete_prescription_closure. run_once.
  by destruct (prescriptions s !! _).
Qed.

Lemma filter_nil_iff {A : Type} (P : A → Prop) `{!∀ x, Decision (P x)}
    (l : list A) :
  filter P l = [] ↔ ∀ x, x ∈ l → ¬ P x.
Proof.
  split.
  - intros Hnil x Hx HP.
    assert (x ∈ filter P l) as Hin by by apply list_elem_of_filter.
    rewrite Hnil in Hin. by apply not_elem_of_nil in Hin.
  - intros Hno. destruct (filter P l) as [|x rest] eqn:Hf; [done|].
    assert (x ∈ filter P l) as Hin by (rewrite Hf; left).
    apply list_elem_of_filter in Hin as [HP Hin]. by destruct (Hno x Hin).
Qed.

(** X10.  The guard of [delete_drug] lifts with the prescription: when the
    drug exists and every detail row that names it belongs to one existing
    prescription, deleting that prescription makes [delete_drug] answer 200. *)
Theorem delete_drug_after_delete_prescription drug_name prescription_id s :
  is_Some (drugs s !! drug_name) →
  is_Some (prescriptions s !! prescription_id) →
  (∀ d, d ∈ prescription_details s →
        PrescriptionDetail.drug_name d = drug_name →
        PrescriptionDetail.prescription_id d = prescription_id) →
  delete_drug drug_name (final (delete_prescription prescription_id s))
  = mkRun (Return (Some (message DrugDeleted)))
          (mkStore (delete drug_name (drugs s)) (doctors s)
                   (delete prescription_id (prescriptions s))
                   (filter (λ d, PrescriptionDetail.prescription_id d
                                   ≠ prescription_id)
                           (prescription_details s))
                   (next_detail_id s))
          [Called 0].
Proof.
  intros [drug Hd] [p Hp] Hall.
  rewrite delete_prescription_run, Hp. cbn [final].
  rewrite delete_drug_run. cbn [drugs]. rewrite Hd.
  assert (details_with_drug drug_name
            (mkStore (drugs s) (doctors s)
               (delete prescription_id (prescriptions s))
               (filter (λ d, PrescriptionDetail.prescription_id d
                               ≠ prescription_id)
                       (prescription_details s))
               (next_detail_id s)) = []) as ->; [|done].
  apply filter_nil_iff. cbn. intros d [Hne Hin]%list_elem_of_filter Hname.
  by apply Hne, Hall.
Qed.

(** *** Doctors *)

Lemma get_doctor_run doctor_id s :
  get_doctor doctor_id s
  = mkRun (Return (Some (match doctors s !! doctor_id with
                         | Some doctor =>
                             (Doctor.to_dict doctor_id doctor, 200%nat)
                         | None => error DoctorNotFound 404
                         end))) s [Called 0].
Proof.
  unfold get_doctor, query_doctor. run_once. by destruct (doctors s !! _).
Qed.

(** X11.  [add_doctor] stores a doctor under an id that is free, after which
    [get_doctor] returns the id and name given; under an id that is taken it
    answers 400 "doctor id exists" and keeps the stored name; and on a body
    without [doctor_id] or [doctor_name] it answers 500 with the [KeyError]
    and stores nothing. *)
Theorem add_doctor_get_doctor (data : DoctorData.t) s :
  let r := add_doctor data s in
  (∀ doctor_id doctor_name,
     data = DoctorData.mk (Some doctor_id) (Some doctor_name) →
     doctors s !! doctor_id = None →
     status r = Some 200%nat
     ∧ final r = mkStore (drugs s)
                   (<[doctor_id := Doctor.mk doctor_name]> (doctors s))
                   (prescriptions s) (prescription_details s)
                   (next_detail_id s)
     ∧ result (get_doctor doctor_id (final r))
       = Return (Some (Doctor.to_dict doctor_id (Doctor.mk doctor_name),
                       200%nat)))
  ∧ (∀ doctor_id doctor_name,
       data = DoctorData.mk (Some doctor_id) (Some doctor_name) →
       is_Some (doctors s !! doctor_id) →
       r = mkRun (Return (Some (error DoctorIdExists 400))) s [Called 0])
  ∧ (DoctorData.doctor_id data = None →
       r = mkRun (Return (Some (error (AddDoctorFailed (KeyError "doctor_id"))
                                      500))) s [Called 0])
  ∧ (is_Some (DoctorData.doctor_id data) →
     DoctorData.doctor_name data = None →
       r = mkRun (Return (Some (error (AddDoctorFailed
                                         (KeyError "doctor_name")) 500)))
                 s [Called 0]).
Proof.
  cbv zeta. unfold add_doctor, insert_doctor. run_once.
  split; [|split; [|split]].
  - intros doctor_id doctor_name -> Hd. cbn -[get_doctor]. rewrite Hd.
    cbn -[get_doctor]. split; [done|]. split; [done|].
    rewrite get_doctor_run. cbn. by rewrite lookup_insert_eq.
  - intros doctor_id doctor_name -> [d Hd]. cbn. by rewrite Hd.
  - by intros ->.
  - intros [doctor_id ->] ->. done.
Qed.

Lemma delete_doctor_run doctor_id s :
  delete_doctor doctor_id s
  = match doctors s !! doctor_id with
    | None => mkRun (Return (Some (error DoctorNotFound 404))) s [Called 0]
    | Some doctor =>
        match prescriptions_of doctor_id s with
        | [] => mkRun (Return (Some (message DoctorDeleted)))
                      (set_doctors (delete doctor_id (doctors s)) s)
                      [Called 0]
        | found =>
            mkRun (Return (Some (JDict
                                   [("error", JText DoctorHasPrescriptions);
                                    ("prescription_count",
                                     JInt (Z.of_nat (length found)))],
                                 400%nat))) s [Called 0]
        end
    end.
Proof.
  unfold delete_doctor, delete_doctor_closure. run_once.
  destruct (doctors s !! _); [|done]. by destruct (prescriptions_of _ _).
Qed.

Lemma prescriptions_of_nil doctor_id s :
  prescriptions_of doctor_id s = []
  ↔ ∀ k p, prescriptions s !! k = Some p →
           Prescription.doctor_id p ≠ doctor_id.
Proof.
  unfold prescriptions_of. rewrite filter_nil_iff. split.
  - intros Hno k p Hk. by apply (Hno (k, p)), elem_of_map_to_list.
  - intros Hno [k p] Hin%elem_of_map_to_list. by apply (Hno k p).
Qed.

(** X12.  [delete_doctor] on an id that is absent answers 404 and changes
    nothing, and its guard lifts with the prescriptions: when the doctor
    exists and has no prescription other than one existing prescription,
    deleting that prescription makes [delete_doctor] answer 200 and remove
    the doctor. *)
Theorem delete_doctor_after_delete_prescription doctor_id prescription_id s :
  (doctors s !! doctor_id = None →
     delete_doctor doctor_id s
     = mkRun (Return (Some (error DoctorNotFound 404))) s [Called 0])
  ∧ (is_Some (doctors s !! doctor_id) →
     is_Some (prescriptions s !! prescription_id) →
     (∀ k p, prescriptions s !! k = Some p →
             Prescription.doctor_id p = doctor_id → k = prescription_id) →
     status (delete_doctor doctor_id
               (final (delete_prescription prescription_id s)))
     = Some 200%nat
     ∧ doctors (final (delete_doctor doctor_id
                         (final (delete_prescription prescription_id s))))
       = delete doctor_id (doctors s)).
Proof.
  split.
  - intros Hd. by rewrite delete_doctor_run, Hd.
  - intros [doctor Hd] [p Hp] Hall.
    rewrite delete_prescription_run, Hp. cbn [final].
    rewrite delete_doctor_run. cbn [doctors]. rewrite Hd.
    assert (prescriptions_of doctor_id
              (mkStore (drugs s) (doctors s)
                 (delete prescription_id (prescriptions s))
                 (filter (λ d, PrescriptionDetail.prescription_id d
                                 ≠ prescription_id)
                         (prescription_details s))
                 (next_detail_id s)) = []) as ->; [|done].
    apply prescriptions_of_nil. cbn.
    intros k p' [Hne Hk]%lookup_delete_Some Hdoc.
    apply Hne. symmetry. by apply (Hall k p').
Qed.

(** *** Prescriptions *)

Lemma get_prescription_run prescription_id s :
  get_prescription prescription_id s
  = mkRun (Return (Some (match prescriptions s !! prescription_id with
                         | Some p =>
                             (Prescription.to_dict prescription_id p, 200%nat)
                         | None => error PrescriptionNotFound 404
                         end))) s [Called 0].
Proof.
  unfold get_prescription, query_prescription. run_once.
  by destruct (prescriptions s !! _).
Qed.

Local Ltac rejected :=
  cbn -[get_prescription]; split; [|split];
  [split; [by intros [=]|intros (?&?&?&?&?&?&?); simplify_eq/=; try done]
  |done|by intros ? ? [=]].

(** X13.  [add_prescription] answers 200 exactly when the body has a
    non-empty [prescription_id] and a non-empty [doctor_id], no prescription
    has the id and the doctor exists.  It then stores the prescription with
    that doctor and a total fee of 0, which [get_prescription] returns, and
    touches no other row; in every other case the store is unchanged. *)
Theorem add_prescription_created (data : PrescriptionData.t) s :
  let r := add_prescription data s in
  (status r = Some 200%nat
   ↔ ∃ prescription_id doctor_id,
       data = PrescriptionData.mk (Some prescription_id) (Some doctor_id)
       ∧ prescription_id ≠ "" ∧ doctor_id ≠ ""
       ∧ prescriptions s !! prescription_id = None
       ∧ is_Some (doctors s !! doctor_id))
  ∧ (status r ≠ Some 200%nat → final r = s)
  ∧ (∀ prescription_id doctor_id,
       status r = Some 200%nat →
       data = PrescriptionData.mk (Some prescription_id) (Some doctor_id) →
       final r
       = mkStore (drugs s) (doctors s)
           (<[prescription_id := Prescription.mk doctor_id (float_of_int 0)]>
              (prescriptions s))
           (prescription_details s) (next_detail_id s)
       ∧ result (get_prescription prescription_id (final r))
         = Return (Some (Prescription.to_dict prescription_id
                           (Prescription.mk doctor_id (float_of_int 0)),
                         200%nat))).
Proof.
  cbv zeta. unfold add_prescription.
  destruct data as [opid odid].
  cbn [PrescriptionData.prescription_id PrescriptionData.doctor_id].
  destruct opid as [pid|]; cbn [truthy_str negb]; [|rejected].
  destruct (String.eqb_spec pid "") as [->|Hpid]; cbn [negb]; [rejected|].
  destruct odid as [did|]; cbn [truthy_str negb]; [|rejected].
  destruct (String.eqb_spec did "") as [->|Hdid]; cbn [negb]; [rejected|].
  unfold insert_prescription. run_once.
  cbn [PrescriptionData.prescription_id PrescriptionData.doctor_id].
  destruct (prescriptions s !! pid) as [p|] eqn:Hp; [rejected|].
  destruct (doctors s !! did) as [doctor|] eqn:Hdoc.
  - cbn -[get_prescription]. split; [|split].
    + split; [|done]. intros _. exists pid, did. by eauto.
    + done.
    + intros ? ? _ [= <- <-]. split; [done|].
      rewrite get_prescription_run. cbn. by rewrite lookup_insert_eq.
  - cbn -[get_prescription]. split; [|split]; [|done|by intros ? ? [=]].
    split; [by intros [=]|].
    intros (? & ? & [= <- <-] & _ & _ & _ & [? Hsome]).
    by rewrite Hdoc in Hsome.
Qed.

(** *** Prescription details *)

Lemma add_prescription_detail_run prescription_id drug_name quantity s :
  drug_name ≠ "" → 0 < quantity →
  add_prescription_detail prescription_id
    (DetailData.mk (Some drug_name) (Some quantity)) s
  = match prescriptions s !! prescription_id, drugs s !! drug_name with
    | None, _ =>
        mkRun (Return (Some (error PrescriptionNotFound 400))) s [Called 0]
    | Some _, None =>
        mkRun (Return (Some (error DrugNotFound 400))) s [Called 0]
    | Some _, Some drug =>
        if Drug.stock drug <? quantity
        then mkRun (Return (Some (error (StockInsufficient (Drug.stock drug))
                                        400))) s [Called 0]
        else
          let detail :=
            PrescriptionDetail.mk (next_detail_id s) prescription_id drug_name
                                  quantity (Drug.price drug) in
          mkRun (Return (Some (JDict [("message", JText DetailAdded);
                                      ("detail",
                                       PrescriptionDetail.to_dict detail)],
                               200%nat)))
                (mkStore (<[drug_name := Drug.mk (Drug.price drug)
                                           (Drug.stock drug - quantity)]>
                            (drugs s))
                         (doctors s) (prescriptions s)
                         (prescription_details s ++ [detail])
                         (next_detail_id s + 1))
                [Called 0]
    end.
Proof.
  intros Hname Hq. unfold add_prescription_detail.
  cbn [DetailData.drug_name DetailData.quantity truthy_str truthy_int].
  apply String.eqb_neq in Hname. rewrite Hname.
  assert ((quantity =? 0) = false) as -> by (apply Z.eqb_neq; lia).
  assert ((quantity <=? 0) = false) as -> by (by apply Z.leb_gt).
  cbn [negb orb]. unfold insert_detail. run_once.
  cbn [DetailData.drug_name DetailData.quantity].
  destruct (prescriptions s !! _); [|done].
  destruct (drugs s !! _); [|done]. by destruct (_ <? _).
Qed.

(** X14.  With a non-empty drug name and a positive quantity,
    [add_prescription_detail] reports a missing prescription with 400
    "prescription not found", before it looks at the drug, and a missing drug
    of an existing prescription with 400 "drug not found"; in both cases
    nothing is stored and no stock moves. *)
Theorem add_prescription_detail_missing_reference prescription_id drug_name
    quantity s :
  drug_name ≠ "" → 0 < quantity →
  let r := add_prescription_detail prescription_id
             (DetailData.mk (Some drug_name) (Some quantity)) s in
  (prescriptions s !! prescription_id = None →
     r = mkRun (Return (Some (error PrescriptionNotFound 400))) s [Called 0])
  ∧ (is_Some (prescriptions s !! prescription_id) →
     drugs s !! drug_name = None →
     r = mkRun (Return (Some (error DrugNotFound 400))) s [Called 0]).
Proof.
  intros Hname Hq. cbv zeta.
  rewrite (add_prescription_detail_run _ _ _ _ Hname Hq). split.
  - by intros ->.
  - by intros [p ->] ->.
Qed.

Lemma running_total_snoc acc prescription_id
    (rows : list (PrescriptionDetail.t F)) d :
  running_total acc prescription_id (rows ++ [d])
  = if decide (PrescriptionDetail.prescription_id d = prescription_id)
    then fadd (running_total acc prescription_id rows)
              (fmul (float_of_int (PrescriptionDetail.quantity d))
                    (PrescriptionDetail.price d))
    else running_total acc prescription_id rows.
Proof.
  revert acc. induction rows as [|d' rows IH]; intros acc; [done|].
  cbn [app running_total].
  destruct (decide (PrescriptionDetail.prescription_id d' = prescription_id));
    apply IH.
Qed.

(** X15.  After a detail was added, [get_prescription_details] lists the
    rows it listed before followed by the new row, the sum of the
    prescription's lines is the old sum plus quantity times the drug's price,
    the lines of every other prescription are as before, and the stored
    [total_fee] of every prescription is untouched: it is stale until
    [calculate_prescription] is called. *)
Theorem add_prescription_detail_then_list prescription_id drug_name quantity
    s (drug : Drug.t F) :
  is_Some (prescriptions s !! prescription_id) →
  drugs s !! drug_name = Some drug →
  drug_name ≠ "" →
  0 < quantity <= Drug.stock drug →
  let r := add_prescription_detail prescription_id
             (DetailData.mk (Some drug_name) (Some quantity)) s in
  let detail := PrescriptionDetail.mk (next_detail_id s) prescription_id
                  drug_name quantity (Drug.price drug) in
  details_of prescription_id (final r)
  = (details_of prescription_id s ++ [detail])%list
  ∧ (∀ other, other ≠ prescription_id →
       details_of other (final r) = details_of other s
       ∧ spec_total other (final r) = spec_total other s)
  ∧ spec_total prescription_id (final r)
    = fadd (spec_total prescription_id s)
           (fmul (float_of_int quantity) (Drug.price drug))
  ∧ prescriptions (final r) = prescriptions s
  ∧ next_detail_id (final r) = next_detail_id s + 1.
Proof.
  intros [p Hp] Hd Hname [Hq Hle]. cbv zeta.
  rewrite (add_prescription_detail_run _ _ _ _ Hname Hq), Hp, Hd.
  assert ((Drug.stock drug <? quantity) = false) as -> by (by apply Z.ltb_ge).
  cbn [final]. unfold details_of, spec_total.
  cbn [prescription_details prescriptions next_detail_id].
  split; [|split; [|split]].
  - rewrite filter_app, filter_cons, filter_nil. cbn. by rewrite decide_True.
  - intros other Hne. rewrite filter_app, filter_cons, filter_nil. cbn.
    rewrite decide_False by done. rewrite app_nil_r. split; [done|].
    rewrite running_total_snoc. cbn. by rewrite decide_False.
  - rewrite running_total_snoc. cbn. by rewrite decide_True.
  - done.
Qed.

Lemma foldr_quantity_app (l1 l2 : list (PrescriptionDetail.t F)) :
  foldr (λ d acc, PrescriptionDetail.quantity d + acc) 0 (l1 ++ l2)
  = foldr (λ d acc, PrescriptionDetail.quantity d + acc) 0 l1
    + foldr (λ d acc, PrescriptionDetail.quantity d + acc) 0 l2.
Proof. induction l1 as [|d l1 IH]; cbn; lia. Qed.

(** X16.  [add_prescription_detail] moves units, it neither makes nor loses
    them: for every drug and every input, the units in stock plus the units
    on detail rows are the same after the request as before. *)
Theorem add_prescription_detail_conserves prescription_id data s drug_name :
  in_stock drug_name (final (add_prescription_detail prescription_id data s))
  + booked drug_name (final (add_prescription_detail prescription_id data s))
  = in_stock drug_name s + booked drug_name s.
Proof.
  destruct (final_add_prescription_detail prescription_id data s)
    as [->| ->]; [done|].
  unfold insert_detail.
  destruct (prescriptions s !! prescription_id); [|done].
  destruct (DetailData.drug_name data) as [name|]; [|done].
  destruct (drugs s !! name) as [drug|] eqn:Hd; [|done].
  destruct (DetailData.quantity data) as [q|]; [|done].
  destruct (Drug.stock drug <? q); [done|].
  unfold in_stock, booked, details_with_drug. cbn.
  rewrite filter_app, filter_cons, filter_nil, foldr_quantity_app. cbn.
  destruct (decide (name = drug_name)) as [->|Hne].
  - rewrite lookup_insert_eq, Hd. cbn. lia.
  - rewrite lookup_insert_ne by done. cbn. lia.
Qed.

(** *** Which route writes which table *)

(** X17.  A table changes only through its own writing routes: [drugs]
    through adding, updating or deleting a drug and adding a detail;
    [doctors] through adding, updating or deleting a doctor; [prescriptions]
    through adding or deleting a prescription and calculating a total;
    [prescription_details] through deleting a prescription and adding a
    detail; the id counter through adding a detail.  In particular no GET
    route changes anything. *)
Theorem handle_frame (req : Request) s :
  (drugs (final (handle req s)) ≠ drugs s →
     (∃ data, req = POST_drugs data)
     ∨ (∃ name data, req = PUT_drug name data)
     ∨ (∃ name, req = DELETE_drug name)
     ∨ (∃ id data, req = POST_details id data))
  ∧ (doctors (final (handle req s)) ≠ doctors s →
       (∃ data, req = POST_doctors data)
       ∨ (∃ id data, req = PUT_doctor id data)
       ∨ (∃ id, req = DELETE_doctor id))
  ∧ (prescriptions (final (handle req s)) ≠ prescriptions s →
       (∃ data, req = POST_prescriptions data)
       ∨ (∃ id, req = DELETE_prescription id)
       ∨ (∃ id, req = POST_calculate id))
  ∧ (prescription_details (final (handle req s)) ≠ prescription_details s →
       (∃ id, req = DELETE_prescription id)
       ∨ (∃ id data, req = POST_details id data))
  ∧ (next_detail_id (final (handle req s)) ≠ next_detail_id s →
       ∃ id data, req = POST_details id data).
Proof.
  destruct (final_handle req s) as [->|Hf]; [by repeat split|].
  destruct req; try done; rewrite Hf; clear Hf;
    (split; [|split; [|split; [|split]]]); intros Hne;
    try (by eauto 10); exfalso; apply Hne; clear Hne.
  all: unfold insert_drug, update_drug_closure, delete_drug_closure,
         insert_doctor, update_doctor_closure, delete_doctor_closure,
         insert_prescription, delete_prescription_closure, insert_detail,
         calculate.
  all: by repeat case_match.
Qed.

(** X18.  No request moves a prescription to another doctor, and only
    [calculate_prescription] on its id changes its [total_fee], to the sum of
    its lines: a prescription that exists before and after a request has the
    same doctor, and is the same row unless the request is that
    calculation. *)
Theorem handle_prescription_kept (req : Request) s prescription_id p p' :
  prescriptions s !! prescription_id = Some p →
  prescriptions (final (handle req s)) !! prescription_id = Some p' →
  Prescription.doctor_id p' = Prescription.doctor_id p
  ∧ (p' = p
     ∨ req = POST_calculate prescription_id
       ∧ Prescription.total_fee p' = spec_total prescription_id s).
Proof.
  intros Hp. destruct (final_handle req s) as [->|Hf].
  { rewrite Hp. intros [= <-]. auto. }
  destruct req; try done; rewrite Hf; clear Hf.
  - unfold insert_drug. repeat case_match; cbn; rewrite Hp; intros [= <-]; auto.
  - unfold update_drug_closure.
    repeat case_match; cbn; rewrite Hp; intros [= <-]; auto.
  - unfold delete_drug_closure.
    repeat case_match; cbn; rewrite Hp; intros [= <-]; auto.
  - unfold insert_doctor.
    repeat case_match; cbn; rewrite Hp; intros [= <-]; auto.
  - unfold update_doctor_closure.
    repeat case_match; cbn; rewrite Hp; intros [= <-]; auto.
  - unfold delete_doctor_closure.
    repeat case_match; cbn; rewrite Hp; intros [= <-]; auto.
  - unfold insert_prescription.
    destruct (PrescriptionData.prescription_id data) as [pid|];
      [|cbn; rewrite Hp; intros [= <-]; auto].
    destruct (prescriptions s !! pid) as [q|] eqn:Hq;
      [cbn; rewrite Hp; intros [= <-]; auto|].
    destruct (PrescriptionData.doctor_id data) as [did|];
      [|cbn; rewrite Hp; intros [= <-]; auto].
    destruct (doctors s !! did); [|cbn; rewrite Hp; intros [= <-]; auto].
    cbn. rewrite lookup_insert_ne by (intros ->; congruence).
    rewrite Hp. intros [= <-]. auto.
  - unfold delete_prescription_closure.
    destruct (prescriptions s !! prescription_id0);
      [|cbn; rewrite Hp; intros [= <-]; auto].
    cbn. intros [_ Hk]%lookup_delete_Some. rewrite Hp in Hk.
    injection Hk as <-. auto.
  - unfold insert_detail.
    repeat case_match; cbn; rewrite Hp; intros [= <-]; auto.
  - unfold calculate.
    destruct (prescriptions s !! prescription_id0) as [q|] eqn:Hq;
      [|cbn; rewrite Hp; intros [= <-]; auto].
    cbn. destruct (decide (prescription_id0 = prescription_id)) as [->|Hne].
    + rewrite lookup_insert_eq. intros [= <-]. rewrite Hp in Hq.
      injection Hq as <-. cbn. rewrite py_sum_spec_total. auto.
    + rewrite lookup_insert_ne by done. rewrite Hp. intros [= <-]. auto.
Qed.

(** *** Integrity of the database *)

Lemma handle_preserves_prescriptions_have_doctor (req : Request) s :
  prescriptions_have_doctor s →
  prescriptions_have_doctor (final (handle req s)).
Proof.
  intros Hinv. destruct (final_handle req s) as [->|Hf]; [done|].
  destruct req; try done; rewrite Hf; clear Hf.
  - unfold insert_drug. by repeat case_match.
  - unfold update_drug_closure. by repeat case_match.
  - unfold delete_drug_closure. by repeat case_match.
  - unfold insert_doctor. repeat case_match; try done.
    intros k p Hk. cbn in *. apply lookup_insert_is_Some'. right.
    by apply (Hinv k).
  - unfold update_doctor_closure. case_match; [|done].
    intros k p Hk. cbn in *. apply lookup_insert_is_Some'. right.
    by apply (Hinv k).
  - unfold delete_doctor_closure. case_match; [|done].
    destruct (prescriptions_of doctor_id s) eqn:Hnone; [|done].
    intros k p Hk. cbn in *. apply lookup_delete_is_Some. split.
    + intros ->. by apply (proj1 (prescriptions_of_nil _ _) Hnone k p).
    + by apply (Hinv k).
  - unfold insert_prescription.
    destruct (PrescriptionData.prescription_id data) as [pid|]; [|done].
    destruct (prescriptions s !! pid); [done|].
    destruct (PrescriptionData.doctor_id data) as [did|]; [|done].
    destruct (doctors s !! did) eqn:Hdoc; [|done].
    intros k p. cbn. intros [[<- <-]|[_ Hk]]%lookup_insert_Some.
    + cbn. by rewrite Hdoc.
    + by apply (Hinv k).
  - unfold delete_prescription_closure. case_match; [|done].
    intros k p. cbn. intros [_ Hk]%lookup_delete_Some. by apply (Hinv k).
  - unfold insert_detail. by repeat case_match.
  - unfold calculate. case_match eqn:Hp; [|done].
    intros k p. cbn. intros [[<- <-]|[_ Hk]]%lookup_insert_Some.
    + cbn. by apply (Hinv _ _ Hp).
    + by apply (Hinv k).
Qed.

Lemma handle_preserves_details_have_parents (req : Request) s :
  details_have_parents s →
  details_have_parents (final (handle req s)).
Proof.
  intros Hinv. destruct (final_handle req s) as [->|Hf]; [done|].
  destruct req; try done; rewrite Hf; clear Hf.
  - unfold insert_drug. repeat case_match; try done.
    intros d Hd. cbn in *. destruct (Hinv d Hd) as [Hp Hdrug].
    split; [done|]. apply lookup_insert_is_Some'. by right.
  - unfold update_drug_closure. case_match; [|done].
    intros d Hd. cbn in *. destruct (Hinv d Hd) as [Hp Hdrug].
    split; [done|]. apply lookup_insert_is_Some'. by right.
  - unfold delete_drug_closure. case_match; [|done].
    destruct (details_with_drug drug_name s) eqn:Hnone; [|done].
    intros d Hd. cbn in *. destruct (Hinv d Hd) as [Hp Hdrug].
    split; [done|]. apply lookup_delete_is_Some. split; [|done].
    intros ->. by apply (proj1 (filter_nil_iff _ _) Hnone d).
  - unfold insert_doctor. by repeat case_match.
  - unfold update_doctor_closure. by repeat case_match.
  - unfold delete_doctor_closure. by repeat case_match.
  - unfold insert_prescription. repeat case_match; try done.
    intros d Hd. cbn in *. destruct (Hinv d Hd) as [Hp Hdrug].
    split; [|done]. apply lookup_insert_is_Some'. by right.
  - unfold delete_prescription_closure. case_match; [|done].
    intros d. cbn. intros [Hne Hd]%list_elem_of_filter.
    destruct (Hinv d Hd) as [Hp Hdrug].
    split; [|done]. by apply lookup_delete_is_Some.
  - unfold insert_detail.
    destruct (prescriptions s !! prescription_id) eqn:Hp; [|done].
    destruct (DetailData.drug_name data) as [name|]; [|done].
    destruct (drugs s !! name) as [drug|] eqn:Hdrug; [|done].
    destruct (DetailData.quantity data) as [q|]; [|done].
    destruct (Drug.stock drug <? q); [done|].
    intros d. cbn. intros [Hd|Hd%list_elem_of_singleton]%elem_of_app.
    + destruct (Hinv d Hd) as [Hp' Hdrug'].
      split; [done|]. apply lookup_insert_is_Some'. by right.
    + subst d. cbn. rewrite Hp, lookup_insert_eq. by split.
  - unfold calculate. case_match; [|done].
    intros d Hd. cbn in *. destruct (Hinv d Hd) as [Hp Hdrug].
    split; [|done]. apply lookup_insert_is_Some'. by right.
Qed.

Lemma handle_preserves_detail_ids_fresh (req : Request) s :
  detail_ids_fresh s → detail_ids_fresh (final (handle req s)).
Proof.
  intros Hinv. destruct (final_handle req s) as [->|Hf]; [done|].
  destruct req; try done; rewrite Hf; clear Hf.
  - unfold insert_drug. by repeat case_match.
  - unfold update_drug_closure. by repeat case_match.
  - unfold delete_drug_closure. by repeat case_match.
  - unfold insert_doctor. by repeat case_match.
  - unfold update_doctor_closure. by repeat case_match.
  - unfold delete_doctor_closure. by repeat case_match.
  - unfold insert_prescription. by repeat case_match.
  - unfold delete_prescription_closure. case_match; [|done].
    destruct Hinv as [Hnodup Hlt]. split; cbn.
    + eapply sublist_NoDup; [exact Hnodup|].
      apply fmap_sublist, sublist_filter.
    + intros d [_ Hd]%list_elem_of_filter. by apply Hlt.
  - unfold insert_detail. repeat case_match; try done.
    destruct Hinv as [Hnodup Hlt]. split; cbn.
    + rewrite fmap_app. apply NoDup_app. split; [done|]. split.
      * intros i (d & -> & Hd)%list_elem_of_fmap.
        intros Heq%list_elem_of_singleton. specialize (Hlt d Hd).
        cbn in Heq. lia.
      * apply NoDup_singleton.
    + intros d [Hd|Hd%list_elem_of_singleton]%elem_of_app.
      * specialize (Hlt d Hd). lia.
      * subst d. cbn. lia.
  - unfold calculate. by repeat case_match.
Qed.

(** X19.  Each request keeps each integrity property of the database on its
    own: that every prescription names an existing doctor, that every detail
    row names an existing prescription and an existing drug, and that the
    generated ids are pairwise different and below the next id. *)
Theorem handle_preserves_integrity (req : Request) s :
  (prescriptions_have_doctor s →
     prescriptions_have_doctor (final (handle req s)))
  ∧ (details_have_parents s → details_have_parents (final (handle req s)))
  ∧ (detail_ids_fresh s → detail_ids_fresh (final (handle req s))).
Proof.
  split; [|split].
  - apply handle_preserves_prescriptions_have_doctor.
  - apply handle_preserves_details_have_parents.
  - apply handle_preserves_detail_ids_fresh.
Qed.

(** X20.  Whatever requests are served, in whatever order, starting from the
    empty tables, the database they leave has all three integrity properties:
    no prescription without its doctor, no detail row without its
    prescription and its drug, no two detail rows with the same id. *)
Theorem serve_integrity (reqs : list Request) :
  prescriptions_have_doctor (serve reqs empty_store)
  ∧ details_have_parents (serve reqs empty_store)
  ∧ detail_ids_fresh (serve reqs empty_store).
Proof.
  assert (∀ s, prescriptions_have_doctor s ∧ details_have_parents s
               ∧ detail_ids_fresh s →
               prescriptions_have_doctor (serve reqs s)
               ∧ details_have_parents (serve reqs s)
               ∧ detail_ids_fresh (serve reqs s)) as Hserve.
  { induction reqs as [|req reqs IH]; intros s (H1 & H2 & H3); [done|].
    apply IH.
    auto using handle_preserves_prescriptions_have_doctor,
      handle_preserves_details_have_parents,
      handle_preserves_detail_ids_fresh. }
  apply Hserve. split; [|split].
  - intros k p Hk. cbn in Hk. by rewrite lookup_empty in Hk.
  - intros d Hd. by apply not_elem_of_nil in Hd.
  - split; [apply NoDup_nil_2|]. intros d Hd. by apply not_elem_of_nil in Hd.
Qed.

(** *** Updating a doctor, and the list routes *)

(** X21.  [update_doctor] never creates a doctor: on an id that is absent it
    answers 404 and changes nothing.  On an existing doctor it stores the
    [doctor_name] of the body, ignores a [doctor_id] in the body, and leaves
    every other doctor as it was; without [doctor_name] it answers 200 and
    the store is unchanged. *)
Theorem update_doctor_partial doctor_id (data : DoctorData.t) s :
  let r := update_doctor doctor_id data s in
  (doctors s !! doctor_id = None →
     r = mkRun (Return (Some (error DoctorNotFound 404))) s [Called 0])
  ∧ (∀ doctor, doctors s !! doctor_id = Some doctor →
       let doctor' :=
         Doctor.mk (default (Doctor.doctor_name doctor)
                            (DoctorData.doctor_name data)) in
       r = mkRun (Return (Some (JDict [("message", JText DoctorUpdated);
                                       ("doctor",
                                        Doctor.to_dict doctor_id doctor')],
                                200%nat)))
                 (mkStore (drugs s) (<[doctor_id := doctor']> (doctors s))
                          (prescriptions s) (prescription_details s)
                          (next_detail_id s))
                 [Called 0]
       ∧ doctors (final r) !! doctor_id = Some doctor'
       ∧ (∀ other, other ≠ doctor_id →
            doctors (final r) !! other = doctors s !! other)
       ∧ (DoctorData.doctor_name data = None → final r = s)).
Proof.
  cbv zeta. unfold update_doctor, update_doctor_closure. run_once. split.
  - by intros ->.
  - intros doctor Hd. rewrite Hd. cbn [fst snd final].
    assert (match DoctorData.doctor_name data with
            | Some doctor_name => Doctor.mk doctor_name
            | None => doctor
            end
            = Doctor.mk (default (Doctor.doctor_name doctor)
                                 (DoctorData.doctor_name data))) as ->
      by (by destruct doctor, (DoctorData.doctor_name data)).
    split; [done|]. split; [cbn; by rewrite lookup_insert_eq|]. split.
    + intros other Hne. cbn. by rewrite lookup_insert_ne.
    + intros ->. cbn. destruct s, doctor. unfold set_doctors. cbn in *.
      by rewrite insert_id.
Qed.

(** X22.  The three list routes answer 200 with one entry per row of their
    table, no more and no less, and change nothing: the list of [get_drugs]
    has as many entries as there are drugs and contains the dictionary of a
    name, price and stock exactly when that drug is stored; likewise
    [get_doctors] and [get_prescriptions]. *)
Theorem list_routes_complete s :
  (∃ l, get_drugs s = mkRun (Return (Some (JList l, 200%nat))) s [Called 0]
        ∧ length l = size (drugs s)
        ∧ ∀ name drug,
            Drug.to_dict name drug ∈ l ↔ drugs s !! name = Some drug)
  ∧ (∃ l, get_doctors s = mkRun (Return (Some (JList l, 200%nat))) s [Called 0]
          ∧ length l = size (doctors s)
          ∧ ∀ id doctor,
              Doctor.to_dict id doctor ∈ l ↔ doctors s !! id = Some doctor)
  ∧ (∃ l, get_prescriptions s
          = mkRun (Return (Some (JList l, 200%nat))) s [Called 0]
          ∧ length l = size (prescriptions s)
          ∧ ∀ id p,
              Prescription.to_dict id p ∈ l ↔ prescriptions s !! id = Some p).
Proof.
  split; [|split]; eexists; (split; [by apply execute_with_retry_return|]);
    (split; [by rewrite length_fmap, length_map_to_list|]).
  - intros name drug. rewrite list_elem_of_fmap. split.
    + intros ([k [p st]] & Heq & Hin). destruct drug as [p' st'].
      injection Heq as <- <- <-. by apply elem_of_map_to_list.
    + intros Hd. exists (name, drug). split; [done|].
      by apply elem_of_map_to_list.
  - intros id doctor. rewrite list_elem_of_fmap. split.
    + intros ([k [n]] & Heq & Hin). destruct doctor as [n'].
      injection Heq as <- <-. by apply elem_of_map_to_list.
    + intros Hd. exists (id, doctor). split; [done|].
      by apply elem_of_map_to_list.
  - intros id p. rewrite list_elem_of_fmap. split.
    + intros ([k [did fee]] & Heq & Hin). destruct p as [did' fee'].
      injection Heq as <- <- <-. by apply elem_of_map_to_list.
    + intros Hp. exists (id, p). split; [done|].
      by apply elem_of_map_to_list.
Qed.
End HandlerMore.

(** ** The further properties on the example database *)

Lemma add_drug_get_drug_witness :
  drugs example_store !! "Morphine" = None
  ∧ status (add_drug (DrugData.mk (Some "Morphine") (Some (9 # 1)%Q) (Some 4))
                     example_store) = Some 200%nat
  ∧ result (get_drug "Morphine"
              (final (add_drug (DrugData.mk (Some "Morphine") (Some (9 # 1)%Q)
                                            (Some 4)) example_store)))
    = Return (Some (Drug.to_dict "Morphine" (Drug.mk (9 # 1)%Q 4), 200%nat)).
Proof.
  assert (Hfree : drugs example_store !! "Morphine" = None) by (by vm_compute).
  destruct (add_drug_get_drug "Morphine" (9 # 1)%Q 4 example_store Hfree)
    as (Hok & Hget & _).
  split; [exact Hfree|]. split; [exact Hok|exact Hget].
Defined.

Lemma add_drug_missing_field_witness :
  (DrugData.drug_name (DrugData.mk (Some "Aspirin") (@None Q) (Some 3)) = None
   ∨ DrugData.price (DrugData.mk (Some "Aspirin") (@None Q) (Some 3)) = None
   ∨ DrugData.stock (DrugData.mk (Some "Aspirin") (@None Q) (Some 3)) = None)
  ∧ ∃ key,
      add_drug (DrugData.mk (Some "Aspirin") (@None Q) (Some 3)) example_store
      = mkRun (Return (Some (error (AddDrugFailed (KeyError key)) 500)))
              example_store [Called 0]
      ∧ key = "price".
Proof.
  assert (Hmiss :
    DrugData.drug_name (DrugData.mk (Some "Aspirin") (@None Q) (Some 3)) = None
    ∨ DrugData.price (DrugData.mk (Some "Aspirin") (@None Q) (Some 3)) = None
    ∨ DrugData.stock (DrugData.mk (Some "Aspirin") (@None Q) (Some 3)) = None)
    by (right; left; reflexivity).
  split; [exact Hmiss|].
  exact (add_drug_missing_field _ example_store Hmiss).
Defined.

Lemma example_store_details (d : PrescriptionDetail.t Q) :
  d ∈ prescription_details example_store →
  PrescriptionDetail.prescription_id d = "P1".
Proof.
  cbn. intros [->|[->|Hd%not_elem_of_nil]%elem_of_cons]%elem_of_cons; done.
Qed.

(** Codeine is named by a row of P1 only: once P1 is deleted, so can
    Codeine be. *)
Lemma delete_drug_after_delete_prescription_witness :
  (is_Some (drugs example_store !! "Codeine")
   ∧ is_Some (prescriptions example_store !! "P1")
   ∧ ∀ d, d ∈ prescription_details example_store →
          PrescriptionDetail.drug_name d = "Codeine" →
          PrescriptionDetail.prescription_id d = "P1")
  ∧ status (delete_drug "Codeine" example_store) = Some 400%nat
  ∧ status (delete_drug "Codeine"
              (final (delete_prescription "P1" example_store)))
    = Some 200%nat.
Proof.
  assert (Hd : is_Some (drugs example_store !! "Codeine"))
    by (by vm_compute; eexists).
  assert (Hp : is_Some (prescriptions example_store !! "P1"))
    by (by vm_compute; eexists).
  assert (Hall : ∀ d, d ∈ prescription_details example_store →
                      PrescriptionDetail.drug_name d = "Codeine" →
                      PrescriptionDetail.prescription_id d = "P1")
    by (intros d Hin _; by apply example_store_details).
  split; [repeat split; done|]. split; [by vm_compute|].
  by rewrite (delete_drug_after_delete_prescription "Codeine" "P1"
                example_store Hd Hp Hall).
Defined.

Lemma add_prescription_detail_missing_reference_witness :
  ("Aspirin" ≠ "" ∧ 0 < 2)
  ∧ add_prescription_detail "P9" (DetailData.mk (Some "Aspirin") (Some 2))
      example_store
    = mkRun (Return (Some (error PrescriptionNotFound 400))) example_store
            [Called 0]
  ∧ add_prescription_detail "P1" (DetailData.mk (Some "Iodine") (Some 2))
      example_store
    = mkRun (Return (Some (error DrugNotFound 400))) example_store [Called 0].
Proof.
  assert (Ha : "Aspirin" ≠ "") by done.
  assert (Hi : "Iodine" ≠ "") by done.
  assert (Hq : 0 < 2) by lia.
  split; [done|]. split.
  - apply (add_prescription_detail_missing_reference "P9" "Aspirin" 2
             example_store Ha Hq). by vm_compute.
  - apply (add_prescription_detail_missing_reference "P1" "Iodine" 2
             example_store Hi Hq); by vm_compute; eexists.
Defined.

(** Four units of Aspirin at 2 on P1: the lines add up to 29/2 + 8 while the
    stored total stays 0. *)
Lemma add_prescription_detail_then_list_witness :
  (is_Some (prescriptions example_store !! "P1")
   ∧ drugs example_store !! "Aspirin" = Some (Drug.mk (2 # 1)%Q 10)
   ∧ "Aspirin" ≠ "" ∧ 0 < 4 <= 10)
  ∧ details_of "P1"
      (final (add_prescription_detail "P1"
                (DetailData.mk (Some "Aspirin") (Some 4)) example_store))
    = (details_of "P1" example_store
       ++ [PrescriptionDetail.mk 3 "P1" "Aspirin" 4 (2 # 1)%Q])%list
  ∧ spec_total "P1"
      (final (add_prescription_detail "P1"
                (DetailData.mk (Some "Aspirin") (Some 4)) example_store))
    = (spec_total "P1" example_store + inject_Z 4 * (2 # 1))%Q
  ∧ prescriptions
      (final (add_prescription_detail "P1"
                (DetailData.mk (Some "Aspirin") (Some 4)) example_store))
      !! "P1"
    = Some (Prescription.mk "D1" (0 # 1)%Q).
Proof.
  assert (Hp : is_Some (prescriptions example_store !! "P1"))
    by (by vm_compute; eexists).
  assert (Hd : drugs example_store !! "Aspirin" = Some (Drug.mk (2 # 1)%Q 10))
    by (by vm_compute).
  assert (Hn : "Aspirin" ≠ "") by done.
  assert (Hq : 0 < 4 <= Drug.stock (Drug.mk (2 # 1)%Q 10)) by (cbn; lia).
  destruct (add_prescription_detail_then_list "P1" "Aspirin" 4 example_store
              _ Hp Hd Hn Hq) as (Hlist & _ & Htotal & Hfee & _).
  split; [repeat split; done|]. split; [exact Hlist|].
  split; [exact Htotal|]. rewrite Hfee. by vm_compute.
Defined.

Lemma handle_prescription_kept_witness :
  (prescriptions example_store !! "P1" = Some (Prescription.mk "D1" (0 # 1)%Q)
   ∧ prescriptions (final (handle (POST_calculate "P1") example_store)) !! "P1"
     = Some (Prescription.mk "D1" (29 # 2)%Q))
  ∧ Prescription.doctor_id (Prescription.mk "D1" (29 # 2)%Q)
    = Prescription.doctor_id (Prescription.mk "D1" (0 # 1)%Q)
  ∧ (Prescription.mk "D1" (29 # 2)%Q = Prescription.mk "D1" (0 # 1)%Q
     ∨ @POST_calculate Q "P1" = POST_calculate "P1"
       ∧ Prescription.total_fee (Prescription.mk "D1" (29 # 2)%Q)
         = spec_total "P1" example_store).
Proof.
  assert (Hp : prescriptions example_store !! "P1"
               = Some (Prescription.mk "D1" (0 # 1)%Q)) by (by vm_compute).
  assert (Hp' : prescriptions
                  (final (handle (POST_calculate "P1") example_store)) !! "P1"
                = Some (Prescription.mk "D1" (29 # 2)%Q)) by (by vm_compute).
  split; [done|].
  exact (handle_prescription_kept (POST_calculate "P1") example_store "P1"
           _ _ Hp Hp').
Defined.
